(** * Product detail page ([src/app/products/[id]/page.tsx])

    A shallow embedding of the [ProductDetail] component: the catalog lookup,
    the rendered element tree, the click handlers and the asynchronous
    [handleCheckout] routine with its effects.

    Conventions.
    - A JavaScript string is a [string] holding its UTF-8 bytes.
    - A JavaScript number that the page handles (prices, stock counts) is an
      integer [Z]; image indices are [nat].
    - The collaborators that live outside the file ([products],
      [checkStripeConfig], [getStripe], [fetch], [Intl.NumberFormat], the
      auth context, the router) are inputs of the model, and so is what the
      JavaScript engine words by itself (its TypeError messages, its exponent
      notation for large numbers). *)

From Stdlib Require Import ZArith Lia Ascii String DecimalString.
From stdpp Require Import base list strings relations.

Set Warnings "-register-all".

Local Open Scope string_scope.
Local Open Scope Z_scope.

(** ** JavaScript values *)

Module Js.

(** A parsed JSON document, as [response.json()] resolves to.  Numbers are
    restricted to integers; an object lists its members, each name once. *)
Inductive json : Type :=
| JNull
| JBool (b : bool)
| JNum (z : Z)
| JStr (s : string)
| JArr (items : list json)
| JObj (members : list (string * json)).

(** ToBoolean, as used by [!x], [x && y], [x || y] and [if (x)]. *)
Definition truthy (j : json) : bool :=
  match j with
  | JNull => false
  | JBool b => b
  | JNum z => negb (z =? 0)
  | JStr s => negb (String.eqb s "")
  | JArr _ | JObj _ => true
  end.

Fixpoint assoc (k : string) (ms : list (string * json)) : option json :=
  match ms with
  | [] => None
  | (k', v) :: ms' => if String.eqb k k' then Some v else assoc k ms'
  end.

(** Property read [j.k] on a non-null value; [None] is [undefined].  The
    page only reads [error] and [sessionId], which no primitive, string or
    array carries. *)
Definition get (j : json) (k : string) : option json :=
  match j with
  | JObj ms => assoc k ms
  | _ => None
  end.

Definition truthy_opt (o : option json) : bool :=
  match o with
  | Some j => truthy j
  | None => false
  end.

Definition string_of_Z (z : Z) : string :=
  NilZero.string_of_int (Z.to_int z).

(** Used for the position of an image, which stays far below 10^21. *)
Definition string_of_nat (n : nat) : string :=
  string_of_Z (Z.of_nat n).

Fixpoint join (sep : string) (l : list string) : string :=
  match l with
  | [] => ""
  | [s] => s
  | s :: l' => s +:+ sep +:+ join sep l'
  end.

(** What the JavaScript engine decides and the page cannot: the exponent
    notation it prints for a number of magnitude 10^21 or more, and the
    message of the TypeError it raises when an object has no usable
    [toString] or [valueOf]. *)
Record Engine : Type := mkEngine {
  exponent_notation : Z -> string;
  not_primitive : string
}.

(** Number::toString on an integer: decimal digits below 10^21, the
    engine's exponent notation from there on. *)
Definition number_to_string (eng : Engine) (z : Z) : string :=
  if Z.abs z <? 10 ^ 21 then string_of_Z z else exponent_notation eng z.

Fixpoint all_some (l : list (option string)) : option (list string) :=
  match l with
  | [] => Some []
  | Some s :: l' =>
      match all_some l' with
      | Some r => Some (s :: r)
      | None => None
      end
  | None :: _ => None
  end.

(** ToString, as applied by [new Error(v)] to its argument; [None] when the
    conversion throws a TypeError.  A parsed object is converted by
    [Object.prototype.toString] unless it has a member of its own named
    [toString]: that member is not callable, [valueOf] then yields no
    primitive, and the conversion throws.  An array joins its elements with
    commas, [null] counting as the empty string. *)
Fixpoint to_string (eng : Engine) (j : json) : option string :=
  match j with
  | JNull => Some "null"
  | JBool true => Some "true"
  | JBool false => Some "false"
  | JNum z => Some (number_to_string eng z)
  | JStr s => Some s
  | JArr items =>
      match all_some (map (fun x => match x with
                                    | JNull => Some ""
                                    | _ => to_string eng x
                                    end) items) with
      | Some texts => Some (join "," texts)
      | None => None
      end
  | JObj members =>
      match assoc "toString" members with
      | Some _ => None
      | None => Some "[object Object]"
      end
  end.

(** The message of what [throw new Error(v)] throws: the converted text, or
    the engine's TypeError message when the conversion throws first. *)
Definition error_text (eng : Engine) (v : json) : string :=
  match to_string eng v with
  | Some s => s
  | None => not_primitive eng
  end.

(** The value of [j.k] when [j && j.k] is truthy. *)
Definition and_get (j : json) (k : string) : option json :=
  if truthy j then
    match get j k with
    | Some v => if truthy v then Some v else None
    | None => None
    end
  else None.

(** [s || d] on strings: the empty string is falsy. *)
Definition or_str (s d : string) : string :=
  if String.eqb s "" then d else s.

(** [n || d] on an optional number: [undefined] and [0] are falsy. *)
Definition or_num (n : option Z) (d : Z) : Z :=
  match n with
  | Some v => if v =? 0 then d else v
  | None => d
  end.

(** [s.startsWith(p)] *)
Definition startsWith (s p : string) : bool := String.prefix p s.

End Js.

(** ** [encodeURIComponent]

    The function leaves the unreserved marks and alphanumerics alone and
    replaces every other character by the percent-escapes of its UTF-8
    bytes; on the UTF-8 bytes of a well-formed string this is a map over
    the bytes. *)

Module Uri.

Definition is_unreserved (c : ascii) : bool :=
  let n := N_of_ascii c in
  ((65 <=? n) && (n <=? 90))%N
  || ((97 <=? n) && (n <=? 122))%N
  || ((48 <=? n) && (n <=? 57))%N
  || bool_decide (c ∈ [ "-"; "_"; "."; "!"; "~"; "*"; "'"; "("; ")" ]%char).

Definition hex_digit (n : N) : ascii :=
  match n with
  | 0 => "0" | 1 => "1" | 2 => "2" | 3 => "3" | 4 => "4" | 5 => "5" | 6 => "6"
  | 7 => "7" | 8 => "8" | 9 => "9" | 10 => "A" | 11 => "B" | 12 => "C"
  | 13 => "D" | 14 => "E" | _ => "F"
  end%N%char.

Definition encode_byte (c : ascii) : string :=
  if is_unreserved c then String c ""
  else
    let n := N_of_ascii c in
    String "%" (String (hex_digit (n / 16)) (String (hex_digit (n mod 16)) "")).

Fixpoint encodeURIComponent (s : string) : string :=
  match s with
  | "" => ""
  | String c s' => encode_byte c +:+ encodeURIComponent s'
  end.

(** Reading the escapes back, byte by byte; [None] on a malformed escape.
    Used only to state what an encoded query value stands for. *)
Definition hex_value (c : ascii) : option N :=
  let n := N_of_ascii c in
  if ((48 <=? n) && (n <=? 57))%N then Some (n - 48)%N
  else if ((65 <=? n) && (n <=? 70))%N then Some (n - 55)%N
  else if ((97 <=? n) && (n <=? 102))%N then Some (n - 87)%N
  else None.

Fixpoint percent_decode (s : string) : option string :=
  match s with
  | "" => Some ""
  | String "%" (String h (String l s')) =>
      match hex_value h, hex_value l, percent_decode s' with
      | Some a, Some b, Some r => Some (String (ascii_of_N (16 * a + b)) r)
      | _, _, _ => None
      end
  | String "%" _ => None
  | String c s' =>
      match percent_decode s' with
      | Some r => Some (String c r)
      | None => None
      end
  end.

End Uri.

(** ** Data model *)

(** A record of the external catalog ([@/data/products]).  The fields are
    the ones the page reads. *)
Module Product.

Record t : Type := mk {
  id : string;
  name : string;
  description : string;
  price : Z;
  subscriptionPrice : option Z;
  stock : Z;
  category : string;
  images : list string;
  features : option (list string);
  isSubscription : bool
}.

End Product.

(** The value of [useAuthContext().user]; the page only tests it for null. *)
Definition User : Type := string.

Inductive PurchaseType : Type := OneTime | Subscription.

Definition purchaseType_tag (t : PurchaseType) : string :=
  match t with
  | OneTime => "one-time"
  | Subscription => "subscription"
  end.

Definition purchaseType_eqb (a b : PurchaseType) : bool :=
  match a, b with
  | OneTime, OneTime | Subscription, Subscription => true
  | _, _ => false
  end.

(** The five [useState] cells of the component. *)
Record State : Type := mkState {
  activeImageIndex : nat;
  purchaseType : PurchaseType;
  isLoading : bool;
  error : string;
  stripeAvailable : bool
}.

(** The values [useState] is called with. *)
Definition initial : State :=
  {| activeImageIndex := 0;
     purchaseType := OneTime;
     isLoading := false;
     error := "";
     stripeAvailable := false |}.

(** ** The checkout request *)

Record Item : Type := mkItem {
  item_name : string;
  item_description : string;
  item_images : list string;
  item_price : Z;
  item_quantity : Z
}.

(** The object handed to [JSON.stringify] for the request body. *)
Record CheckoutBody : Type := mkBody {
  items : list Item;
  body_purchaseType : PurchaseType
}.

Record RequestInit : Type := mkInit {
  method : string;
  headers : list (string * string);
  body : CheckoutBody
}.

(** ** Effects *)

Inductive Level : Type := LogLevel | WarnLevel | ErrorLevel.

(** What a handler does to the world, in order.  A console call keeps its
    leading literal only. *)
Inductive event : Type :=
| RouterPush (href : string)
| RouterBack
| SetActiveImageIndex (i : nat)
| SetPurchaseType (t : PurchaseType)
| SetIsLoading (b : bool)
| SetError (s : string)
| SetStripeAvailable (b : bool)
| Console (lvl : Level) (text : string)
| Fetch (url : string) (init : RequestInit)
| GetStripe
| RedirectToCheckout (sessionId : Js.json).

(** A thrown or rejected value, as far as the page can tell values apart:
    it only ever evaluates [error.message || ''] on one, inside a template.
    [Error m] is a value on which that reads the text [m]: an [Error] object
    with message [m], or any other non-null value, whose missing [message]
    reads as the empty text.  [Unreadable complaint] is a value on which
    evaluating the template throws: [null] or [undefined], where the property
    read throws, or a value whose [message] cannot be converted to text;
    [complaint] is the message of the TypeError the engine raises then. *)
Inductive Exn : Type :=
| Error (message : string)
| Unreadable (complaint : string).

Inductive result (A : Type) : Type :=
| Ok (a : A)
| Throw (e : Exn).
Arguments Ok {A} a.
Arguments Throw {A} e.

(** A computation: the events it performed and how it ended. *)
Definition M (A : Type) : Type := list event * result A.

Definition ret {A} (a : A) : M A := ([], Ok a).

Definition bind {A B} (m : M A) (k : A -> M B) : M B :=
  match m with
  | (t, Ok a) => let (t', r) := k a in ((t ++ t')%list, r)
  | (t, Throw e) => (t, Throw e)
  end.

Definition emit (ev : event) : M unit := ([ev], Ok tt).

Definition throw {A} (e : Exn) : M A := ([], Throw e).

(** [try { m } catch (e) { h e }] *)
Definition try_catch {A} (m : M A) (h : Exn -> M A) : M A :=
  match m with
  | (t, Throw e) => let (t', r) := h e in ((t ++ t')%list, r)
  | ok => ok
  end.

(** Settling an awaited promise: a fulfilment is the value, a rejection is
    thrown at the [await]. *)
Definition await {A} (r : result A) : M A := ([], r).

Declare Scope js_scope.
Delimit Scope js_scope with js.
Notation "x <- m ;; k" := (bind m (fun x => k))
  (at level 100, m at next level, right associativity) : js_scope.
Notation "m ;; k" := (bind m (fun _ => k))
  (at level 100, right associativity) : js_scope.

Definition trace {A} (m : M A) : list event := fst m.
Definition outcome {A} (m : M A) : result A := snd m.

(** The state cells after a run of events: each setter writes its own cell. *)
Definition apply_event (st : State) (ev : event) : State :=
  match ev with
  | SetActiveImageIndex i =>
      mkState i (purchaseType st) (isLoading st) (error st) (stripeAvailable st)
  | SetPurchaseType t =>
      mkState (activeImageIndex st) t (isLoading st) (error st) (stripeAvailable st)
  | SetIsLoading b =>
      mkState (activeImageIndex st) (purchaseType st) b (error st) (stripeAvailable st)
  | SetError s =>
      mkState (activeImageIndex st) (purchaseType st) (isLoading st) s (stripeAvailable st)
  | SetStripeAvailable b =>
      mkState (activeImageIndex st) (purchaseType st) (isLoading st) (error st) b
  | _ => st
  end.

Definition apply_events (t : list event) (st : State) : State :=
  fold_left apply_event t st.

(** ** Collaborators *)

(** The handle [getStripe()] resolves to ([@/lib/stripe]). *)
Module Stripe.

Record StripeError : Type := mkError { message : option string }.

Record RedirectResult : Type := mkResult { error : option StripeError }.

Record t : Type := mk {
  redirectToCheckout : Js.json -> result RedirectResult
}.

End Stripe.

Record Response : Type := mkResponse {
  ok : bool;
  status : Z;
  json : result Js.json
}.

(** Everything the component reads from outside itself during one render
    or one handler run. *)
Record Env : Type := mkEnv {
  user : option User;
  NEXT_PUBLIC_SITE_URL : option string;
  window_origin : option string;
  fetch : string -> RequestInit -> result Response;
  getStripe : result (option Stripe.t);
  checkStripeConfig : result bool;
  (* [new Intl.NumberFormat('ja-JP', {style: 'currency', currency: 'JPY'}).format] *)
  intl_format : Z -> string;
  engine : Js.Engine
}.

(** ** Messages *)

Definition msg_not_configured : string :=
  "決済システムの設定が完了していません。管理者にお問い合わせください。".
Definition msg_session_failed : string :=
  "決済セッションの作成に失敗しました".
Definition msg_no_session_id : string :=
  "セッションIDが取得できませんでした".
Definition msg_stripe_init : string :=
  "Stripeの初期化に失敗しました。ブラウザの設定を確認してください。".
Definition msg_redirect_failed : string :=
  "チェックアウトページへのリダイレクトに失敗しました".
Definition msg_prefix : string :=
  "決済処理中にエラーが発生しました: ".

Definition checkout_url : string := "/api/create-checkout-session".

(** ** The mount effect *)

(** [checkStripe] of the [useEffect] hook. *)
Definition checkStripe (env : Env) : M unit :=
  try_catch
    (isAvailable <- await (checkStripeConfig env) ;;
     if isAvailable : bool then
       (emit (Console LogLevel "Stripe設定を検出しました") ;;
        emit (SetStripeAvailable true))
     else
       (emit (Console WarnLevel "Stripe公開鍵が設定されていません") ;;
        emit (SetStripeAvailable false)))%js
    (fun err =>
       (emit (Console ErrorLevel "環境変数チェックエラー:") ;;
        emit (SetStripeAvailable false))%js).

(** ** [handleCheckout] *)

(** [process.env.NEXT_PUBLIC_SITE_URL ||
     (typeof window !== 'undefined' ? window.location.origin : '')] *)
Definition baseUrl (env : Env) : string :=
  let fallback := match window_origin env with
                  | Some o => o
                  | None => ""
                  end in
  match NEXT_PUBLIC_SITE_URL env with
  | Some s => Js.or_str s fallback
  | None => fallback
  end.

Definition productImages (env : Env) (product : Product.t) : list string :=
  map (fun img => if Js.startsWith img "/" then baseUrl env +:+ img else img)
      (Product.images product).

(** [purchaseType === 'subscription' && product.subscriptionPrice
      ? product.subscriptionPrice : product.price] *)
Definition resolved_price (product : Product.t) (t : PurchaseType) : Z :=
  match t, Product.subscriptionPrice product with
  | Subscription, Some sp => if sp =? 0 then Product.price product else sp
  | _, _ => Product.price product
  end.

Definition checkout_init (env : Env) (product : Product.t) (st : State)
  : RequestInit :=
  let imgs := productImages env product in
  {| method := "POST";
     headers := [("Content-Type", "application/json")];
     body :=
       {| items :=
            [ {| item_name := Product.name product;
                 item_description := Js.or_str (Product.description product) "";
                 item_images := if (0 <? length imgs)%nat then imgs else [];
                 item_price := resolved_price product (purchaseType st);
                 item_quantity := 1 |} ];
          body_purchaseType := purchaseType st |} |}.

(** [result.error.message || '...'] *)
Definition redirect_message (err : Stripe.StripeError) : string :=
  match Stripe.message err with
  | Some m => Js.or_str m msg_redirect_failed
  | None => msg_redirect_failed
  end.

(** The block guarded by [if (!response.ok)]: it always throws. *)
Definition reject_response (env : Env) (response : Response) : M unit :=
  (errorMessage <-
     try_catch
       (errorData <- await (json response) ;;
        ret (match Js.and_get errorData "error" with
             | Some e => e
             | None => Js.JStr msg_session_failed
             end))
       (fun err => ret (Js.JStr msg_session_failed)) ;;
   throw (Error (Js.error_text (engine env) errorMessage)))%js.

(** The body of the [try]. *)
Definition checkout_chain (env : Env) (product : Product.t) (st : State)
  : M unit :=
  (let init := checkout_init env product st in
   emit (Console LogLevel "決済処理を開始します...") ;;
   emit (Fetch checkout_url init) ;;
   response <- await (fetch env checkout_url init) ;;
   (if negb (ok response) then reject_response env response else ret tt) ;;
   data <- await (json response) ;;
   match Js.and_get data "sessionId" with
   | None => throw (Error msg_no_session_id)
   | Some sessionId =>
       emit (Console LogLevel "セッションID取得完了:") ;;
       emit (Console LogLevel "Stripe初期化を開始します...") ;;
       emit GetStripe ;;
       stripe <- await (getStripe env) ;;
       match stripe with
       | None => throw (Error msg_stripe_init)
       | Some stripe =>
           emit (Console LogLevel
                   "Stripe初期化完了、チェックアウトページへリダイレクトします...") ;;
           emit (RedirectToCheckout sessionId) ;;
           result <- await (Stripe.redirectToCheckout stripe sessionId) ;;
           match Stripe.error result with
           | Some err =>
               emit (Console ErrorLevel "リダイレクトエラー:") ;;
               throw (Error (redirect_message err))
           | None => ret tt
           end
       end
   end)%js.

(** [error.message || ''] on a caught value: the read throws a TypeError on
    [null] and [undefined]. *)
Definition read_message (error : Exn) : M string :=
  match error with
  | Error m => ret (Js.or_str m "")
  | Unreadable complaint => throw (Error complaint)
  end.

(** The [catch] clause.  The template is evaluated before [setError] is
    called, so when the read throws neither setter runs. *)
Definition checkout_catch (error : Exn) : M unit :=
  (emit (Console ErrorLevel "決済エラー:") ;;
   text <- read_message error ;;
   emit (SetError (msg_prefix +:+ text)) ;;
   emit (SetIsLoading false))%js.

Definition handleCheckout (env : Env) (id : string) (product : Product.t)
    (st : State) : M unit :=
  match user env with
  | None =>
      emit (RouterPush
              ("/login?redirect=" +:+ Uri.encodeURIComponent ("/products/" +:+ id)))
  | Some _ =>
      if negb (stripeAvailable st) then emit (SetError msg_not_configured)
      else
        (emit (SetIsLoading true) ;;
         emit (SetError "") ;;
         try_catch (checkout_chain env product st) checkout_catch)%js
  end.

(** ** The rendered tree *)

(** The closures the page attaches to [onClick]. *)
Inductive handler : Type :=
| OnBack                                   (* [() => router.back()] *)
| OnSelectImage (index : nat)              (* [() => setActiveImageIndex(index)] *)
| OnSelectPurchase (t : PurchaseType)      (* [() => setPurchaseType(t)] *)
| OnCheckout.                              (* [handleCheckout] *)

(** A JSX element tree.  An element keeps its tag, its [className] and its
    children; a button also its [onClick] and [disabled]; an image its [src]
    and [alt] ([None] is [undefined]).  The constant [fill], [style] and [key]
    props are left out. *)
Inductive node : Type :=
| Text (s : string)
| Elem (tag className : string) (children : list node)
| Button (className : string) (onClick : handler) (disabled : bool)
         (children : list node)
| Image (src : option string) (alt : string) (className : string).

(** [cond && (<element/>)] inside a list of children. *)
Definition when (cond : bool) (n : node) : list node :=
  if cond then [n] else [].

Definition formatPrice (env : Env) (price : Z) : string := intl_format env price.

(** The view returned when [products.find] yields nothing. *)
Definition not_found_view : node :=
  Elem "div" "min-h-[500px] flex items-center justify-center"
    [ Elem "div" "text-center"
        [ Elem "h1" "text-2xl font-bold mb-4" [ Text "商品が見つかりませんでした" ];
          Button "bg-primary text-white px-4 py-2 rounded hover:bg-opacity-90 transition"
            OnBack false [ Text "前のページに戻る" ] ] ].

Definition main_image (product : Product.t) (st : State) : node :=
  Image (Product.images product !! activeImageIndex st)
        (Product.name product) "rounded-lg".

Definition thumbnail (product : Product.t) (st : State) (index : nat)
    (image : string) : node :=
  Button
    ("relative h-20 w-20 rounded-md overflow-hidden border-2 "
       +:+ (if Nat.eqb (activeImageIndex st) index
            then "border-primary" else "border-transparent"))
    (OnSelectImage index) false
    [ Image (Some image)
        (Product.name product +:+ " - イメージ " +:+ Js.string_of_nat (index + 1)) "" ].

Definition gallery (product : Product.t) (st : State) : node :=
  Elem "div" "md:w-1/2 p-6"
    (Elem "div" "relative h-96 w-full mb-4" [ main_image product st ]
     :: when (1 <? length (Product.images product))%nat
          (Elem "div" "flex space-x-2"
             (imap (thumbnail product st) (Product.images product)))).

(** The two price spans (lines 210-217). *)
Definition price_display (env : Env) (product : Product.t) (st : State) : node :=
  Elem "div" "mb-6"
    (Elem "span" "text-2xl font-bold text-primary"
       [ Text (formatPrice env (Product.price product)) ]
     :: when (Product.isSubscription product
              && purchaseType_eqb (purchaseType st) Subscription)
          (Elem "span" "text-lg ml-2 text-gray-600"
             [ Text (formatPrice env
                       (Js.or_num (Product.subscriptionPrice product) 0));
               Text "/月" ])).

Definition features_block (product : Product.t) : list node :=
  match Product.features product with
  | Some fs =>
      when (0 <? length fs)%nat
        (Elem "div" "mb-6"
           [ Elem "h2" "text-xl font-bold mb-2" [ Text "特徴" ];
             Elem "ul" "list-disc list-inside space-y-1"
               (map (fun feature => Elem "li" "text-gray-600" [ Text feature ]) fs) ])
  | None => []
  end.

Definition stock_block (env : Env) (product : Product.t) : node :=
  Elem "div" "mb-6"
    [ Elem "h2" "text-xl font-bold mb-2" [ Text "在庫状況" ];
      Elem "p" (if 0 <? Product.stock product then "text-green-600" else "text-red-600")
        [ Text (if 0 <? Product.stock product
                then "在庫あり（残り"
                       +:+ Js.number_to_string (engine env) (Product.stock product)
                       +:+ "個）"
                else "在庫切れ") ] ].

Definition purchase_button (st : State) (t : PurchaseType) (label : string) : node :=
  Button
    ("px-4 py-2 border rounded-md "
       +:+ (if purchaseType_eqb (purchaseType st) t
            then "bg-primary text-white border-primary"
            else "bg-white text-gray-700 border-gray-300 hover:border-primary"))
    (OnSelectPurchase t) false [ Text label ].

Definition purchase_block (product : Product.t) (st : State) : list node :=
  when (Product.isSubscription product)
    (Elem "div" "mb-6"
       [ Elem "h2" "text-xl font-bold mb-2" [ Text "購入タイプ" ];
         Elem "div" "flex space-x-4"
           [ purchase_button st OneTime "単品購入";
             purchase_button st Subscription "定期購入" ] ]).

Definition error_block (st : State) : list node :=
  when (negb (String.eqb (error st) ""))
    (Elem "div" "mb-6 bg-red-50 border border-red-200 text-red-700 px-4 py-3 rounded"
       [ Text (error st) ]).

(** The trigger control (lines 278-286). *)
Definition checkout_button (product : Product.t) (st : State) : node :=
  Button
    ("w-full bg-primary text-white py-3 px-6 rounded-md shadow hover:bg-opacity-90 transition "
       +:+ (if isLoading st then "opacity-70 cursor-not-allowed" else "")
       +:+ " "
       +:+ (if Product.stock product <=? 0 then "opacity-50 cursor-not-allowed" else ""))
    OnCheckout
    (isLoading st || (Product.stock product <=? 0))
    [ Text (if isLoading st then "処理中..."
            else if Product.stock product <=? 0 then "在庫切れ"
            else "購入する") ].

Definition login_hint (env : Env) : list node :=
  when (negb (bool_decide (is_Some (user env))))
    (Elem "p" "text-sm text-gray-600 mt-2 text-center"
       [ Text "購入するには、まずログインしてください。" ]).

Definition info_column (env : Env) (product : Product.t) (st : State) : node :=
  Elem "div" "md:w-1/2 p-6"
    ([ Elem "h1" "text-3xl font-bold mb-4" [ Text (Product.name product) ];
       price_display env product st;
       Elem "p" "text-gray-600 mb-6" [ Text (Product.description product) ] ]
     ++ features_block product
     ++ [ Elem "div" "mb-6"
            [ Elem "h2" "text-xl font-bold mb-2" [ Text "カテゴリー" ];
              Elem "p" "text-gray-600" [ Text (Product.category product) ] ];
          stock_block env product ]
     ++ purchase_block product st
     ++ error_block st
     ++ [ checkout_button product st ]
     ++ login_hint env)%list.

(** The view for a resolved product (lines 167-298). *)
Definition detail_view (env : Env) (product : Product.t) (st : State) : node :=
  Elem "div" "bg-gray-50 py-12"
    [ Elem "div" "container mx-auto px-4"
        [ Elem "div" "bg-white rounded-lg shadow-md overflow-hidden"
            [ Elem "div" "flex flex-col md:flex-row"
                [ gallery product st; info_column env product st ] ] ] ].

(** [products.find(p => p.id === id)] *)
Definition find_product (products : list Product.t) (id : string)
  : option Product.t :=
  List.find (fun p => String.eqb (Product.id p) id) products.

(** One render of the component. *)
Definition ProductDetail (products : list Product.t) (env : Env) (id : string)
    (st : State) : node :=
  match find_product products id with
  | None => not_found_view
  | Some product => detail_view env product st
  end.

(** ** Handlers and the page as a transition system *)

(** [() => router.back()], the only handler of the not-found view. *)
Definition goBack : M unit := emit RouterBack.

Definition run_handler (env : Env) (id : string) (product : Product.t)
    (st : State) (h : handler) : M unit :=
  match h with
  | OnBack => goBack
  | OnSelectImage index => emit (SetActiveImageIndex index)
  | OnSelectPurchase t => emit (SetPurchaseType t)
  | OnCheckout => handleCheckout env id product st
  end.

(** The buttons of a tree with their [disabled] attribute, in document order. *)
Fixpoint buttons (n : node) : list (handler * bool) :=
  match n with
  | Button _ h d cs => (h, d) :: flat_map buttons cs
  | Elem _ _ cs => flat_map buttons cs
  | Text _ | Image _ _ _ => []
  end.

(** A handler the user can trigger: it sits on a button that is not
    disabled. *)
Definition clickable (n : node) (h : handler) : Prop := In (h, false) (buttons n).

(** The text under a node. *)
Fixpoint text_of (n : node) : string :=
  match n with
  | Text s => s
  | Elem _ _ cs | Button _ _ _ cs =>
      fold_right (fun c acc => text_of c +:+ acc) "" cs
  | Image _ _ _ => ""
  end.

(** An [async] handler runs up to its first [await] inside the click; the
    only [await] that a trace can start with is the one on [fetch].  The
    rest of the trace runs when the promise settles. *)
Fixpoint sync_part (t : list event) : list event :=
  match t with
  | [] => []
  | Fetch url init :: _ => [Fetch url init]
  | ev :: t' => ev :: sync_part t'
  end.

Fixpoint continuation (t : list event) : option (list event) :=
  match t with
  | [] => None
  | Fetch _ _ :: t' => Some t'
  | _ :: t' => continuation t'
  end.

(** The mounted page: its state cells and the continuations of the handlers
    that are suspended at an [await]. *)
Record Page : Type := mkPage {
  ui : State;
  inflight : list (list event)
}.

Definition mounted : Page := mkPage initial [].

Definition suspend (t : list event) (ks : list (list event)) : list (list event) :=
  match continuation t with
  | Some k => k :: ks
  | None => ks
  end.

Inductive step (id : string) (product : Product.t) : Page -> Page -> Prop :=
| step_effect (env : Env) (pg : Page) :
    (* the [useEffect] callback *)
    step id product pg
      (mkPage (apply_events (trace (checkStripe env)) (ui pg)) (inflight pg))
| step_click (env : Env) (pg : Page) (h : handler) :
    clickable (detail_view env product (ui pg)) h ->
    let t := trace (run_handler env id product (ui pg) h) in
    step id product pg
      (mkPage (apply_events (sync_part t) (ui pg)) (suspend t (inflight pg)))
| step_settle (pg : Page) (ks1 ks2 : list (list event)) (k : list event) :
    inflight pg = (ks1 ++ k :: ks2)%list ->
    step id product pg (mkPage (apply_events k (ui pg)) (ks1 ++ ks2)%list).

Definition reachable (id : string) (product : Product.t) (pg : Page) : Prop :=
  rtc (step id product) mounted pg.

(** ** Reading a tree *)

(** The thumbnail strip appears only for two images or more. *)
Definition thumbnail_buttons (product : Product.t) : list (handler * bool) :=
  if (1 <? length (Product.images product))%nat
  then imap (fun i _ => (OnSelectImage i, false)) (Product.images product)
  else [].

Definition purchase_buttons (product : Product.t) : list (handler * bool) :=
  if Product.isSubscription product
  then [ (OnSelectPurchase OneTime, false); (OnSelectPurchase Subscription, false) ]
  else [].

(** ** Reading a trace *)

Definition is_fetch (ev : event) : bool :=
  match ev with Fetch _ _ => true | _ => false end.

Definition is_getStripe (ev : event) : bool :=
  match ev with GetStripe => true | _ => false end.

Definition is_redirect (ev : event) : bool :=
  match ev with RedirectToCheckout _ => true | _ => false end.

Definition is_loading_reset (ev : event) : bool :=
  match ev with SetIsLoading false => true | _ => false end.

Definition count (p : event -> bool) (t : list event) : nat :=
  length (List.filter p t).

(** Events that leave the gallery selection, the purchase mode and the
    payment-availability cell alone. *)
Definition keeps_selection (ev : event) : Prop :=
  match ev with
  | SetActiveImageIndex _ | SetPurchaseType _ | SetStripeAvailable _ => False
  | _ => True
  end.

(** ** The outcomes of the checkout chain, as the design lists them *)

(** The message a non-OK response ends up with: the text of the body's
    [error] member when the body parses and carries a truthy one, the stock
    message otherwise. *)
Definition non_ok_message (env : Env) (response : Response) : string :=
  match json response with
  | Ok errorData =>
      match Js.and_get errorData "error" with
      | Some e => Js.error_text (engine env) e
      | None => msg_session_failed
      end
  | Throw _ => msg_session_failed
  end.

(** The endpoint answered OK and the body carries a session identifier. *)
Definition session_issued (env : Env) (init : RequestInit) (sessionId : Js.json)
  : Prop :=
  exists response data,
    fetch env checkout_url init = Ok response /\
    ok response = true /\
    json response = Ok data /\
    Js.and_get data "sessionId" = Some sessionId.

(** The four failures of the chain, each with the message it raises. *)
Inductive checkout_failure (env : Env) (init : RequestInit) : string -> Prop :=
| NonOkResponse (response : Response) :
    fetch env checkout_url init = Ok response ->
    ok response = false ->
    checkout_failure env init (non_ok_message env response)
| MissingSessionId (response : Response) (data : Js.json) :
    fetch env checkout_url init = Ok response ->
    ok response = true ->
    json response = Ok data ->
    Js.and_get data "sessionId" = None ->
    checkout_failure env init msg_no_session_id
| ClientUnavailable (sessionId : Js.json) :
    session_issued env init sessionId ->
    getStripe env = Ok None ->
    checkout_failure env init msg_stripe_init
| RedirectRefused (sessionId : Js.json) (stripe : Stripe.t)
    (res : Stripe.RedirectResult) (err : Stripe.StripeError) :
    session_issued env init sessionId ->
    getStripe env = Ok (Some stripe) ->
    Stripe.redirectToCheckout stripe sessionId = Ok res ->
    Stripe.error res = Some err ->
    checkout_failure env init (redirect_message err).

(** The chain ran to its end: session issued, client obtained, redirect
    reported no error. *)
Definition checkout_success (env : Env) (init : RequestInit) : Prop :=
  exists sessionId stripe res,
    session_issued env init sessionId /\
    getStripe env = Ok (Some stripe) /\
    Stripe.redirectToCheckout stripe sessionId = Ok res /\
    Stripe.error res = None.

(** The events up to the call of the factory, once a session is issued. *)
Definition session_prelude (env : Env) (product : Product.t) (st : State)
  : list event :=
  [ SetIsLoading true; SetError "";
    Console LogLevel "決済処理を開始します...";
    Fetch checkout_url (checkout_init env product st);
    Console LogLevel "セッションID取得完了:";
    Console LogLevel "Stripe初期化を開始します...";
    GetStripe ].

(** ** Invariants of the mounted page *)

(** The gallery index stays inside a non-empty image list, and no suspended
    continuation will move it. *)
Definition index_invariant (product : Product.t) (pg : Page) : Prop :=
  (activeImageIndex (ui pg) < length (Product.images product))%nat
  /\ Forall (Forall keeps_selection) (inflight pg).

(** An out-of-stock page is never loading and has nothing in flight. *)
Definition idle (pg : Page) : Prop :=
  isLoading (ui pg) = false /\ inflight pg = [].

(** ** Sample inputs *)

Module Samples.

(** The product of the out-of-stock example. *)
Definition p1 : Product.t :=
  {| Product.id := "p1"; Product.name := "Tea"; Product.description := "";
     Product.price := 1000; Product.subscriptionPrice := None;
     Product.stock := 0; Product.category := "drinks";
     Product.images := ["/images/tea.png"]; Product.features := None;
     Product.isSubscription := false |}.

(** A subscription-eligible product without a subscription price. *)
Definition p_sub : Product.t :=
  {| Product.id := "p2"; Product.name := "Coffee"; Product.description := "beans";
     Product.price := 1000; Product.subscriptionPrice := None;
     Product.stock := 5; Product.category := "drinks";
     Product.images := ["/images/a.png"; "https://cdn.example/b.png"];
     Product.features := Some ["fresh"];
     Product.isSubscription := true |}.

(** A product whose image list is empty. *)
Definition p_bare : Product.t :=
  {| Product.id := "p3"; Product.name := "Mug"; Product.description := "";
     Product.price := 500; Product.subscriptionPrice := None;
     Product.stock := 2; Product.category := "goods";
     Product.images := []; Product.features := None;
     Product.isSubscription := false |}.

Definition catalog : list Product.t := [p1; p_sub; p_bare].

(** The state after the mount effect found the payment configuration. *)
Definition ready : State :=
  {| activeImageIndex := 0; purchaseType := OneTime; isLoading := false;
     error := ""; stripeAvailable := true |}.

Definition yen (z : Z) : string := "JPY " +:+ Js.string_of_Z z.

(** An engine with V8's wording; its exponent notation drops the trailing
    zeros of the digits, which is what V8 prints for a number written with
    few significant digits, such as 1e21. *)
Fixpoint drop_zeros (l : list ascii) : list ascii :=
  match l with
  | c :: l' => if Ascii.eqb c "0" then drop_zeros l' else l
  | [] => []
  end.

Definition mantissa (digits : string) : string :=
  match digits with
  | "" => ""
  | String d rest =>
      let kept := string_of_list_ascii
                    (rev (drop_zeros (rev (list_ascii_of_string rest)))) in
      if String.eqb kept "" then String d "" else String d ("." +:+ kept)
  end.

Definition exponent (z : Z) : string :=
  let digits := Js.string_of_Z (Z.abs z) in
  (if z <? 0 then "-" else "")
    +:+ mantissa digits +:+ "e+" +:+ Js.string_of_nat (String.length digits - 1).

Definition v8 : Js.Engine :=
  {| Js.exponent_notation := exponent;
     Js.not_primitive := "Cannot convert object to primitive value" |}.

Definition world (u : option User) (f : result Response)
    (g : result (option Stripe.t)) : Env :=
  {| user := u;
     NEXT_PUBLIC_SITE_URL := None;
     window_origin := Some "https://shop.example";
     fetch := fun _ _ => f;
     getStripe := g;
     checkStripeConfig := Ok true;
     intl_format := yen;
     engine := v8 |}.

Definition respond (is_ok : bool) (code : Z) (j : Js.json) : result Response :=
  Ok {| ok := is_ok; status := code; json := Ok j |}.

Definition session_cs_123 : Js.json := Js.JObj [("sessionId", Js.JStr "cs_123")].

Definition out_of_stock_body : Js.json := Js.JObj [("error", Js.JStr "out of stock")].

Definition client (r : result Stripe.RedirectResult) : Stripe.t :=
  {| Stripe.redirectToCheckout := fun _ => r |}.

Definition redirected : result Stripe.RedirectResult :=
  Ok {| Stripe.error := None |}.

End Samples.

(** ** Further readings of states, traces and addresses *)

(** The texts the inline error can hold: nothing, the configuration
    message, or a message behind the page's prefix. *)
Definition known_error (s : string) : Prop :=
  s = "" \/ s = msg_not_configured \/ exists m, s = msg_prefix +:+ m.

Definition sets_known_error (ev : event) : Prop :=
  match ev with
  | SetError s => known_error s
  | _ => True
  end.

(** Events that write no state cell at all. *)
Definition writes_no_cell (ev : event) : Prop :=
  match ev with
  | SetActiveImageIndex _ | SetPurchaseType _ | SetIsLoading _ | SetError _
  | SetStripeAvailable _ => False
  | _ => True
  end.

Definition is_navigation (ev : event) : bool :=
  match ev with RouterPush _ | RouterBack => true | _ => false end.

(** A character that [encodeURIComponent] can produce. *)
Definition is_encoded_char (c : ascii) : bool :=
  Uri.is_unreserved c || Ascii.eqb c "%".

(** Characters that would cut or alter a query string. *)
Definition query_delimiters : list ascii :=
  [ "&"; "#"; "?"; "="; "/"; "+"; " " ]%char.

Definition is_checkout_button (b : handler * bool) : bool :=
  match fst b with OnCheckout => true | _ => false end.

Definition is_back_button (b : handler * bool) : bool :=
  match fst b with OnBack => true | _ => false end.

(** The selection cells stay at their initial values when the view offers
    no control to move them. *)
Definition selection_invariant (product : Product.t) (pg : Page) : Prop :=
  ((length (Product.images product) <= 1)%nat -> activeImageIndex (ui pg) = 0%nat)
  /\ (Product.isSubscription product = false -> purchaseType (ui pg) = OneTime)
  /\ Forall (Forall keeps_selection) (inflight pg).

(** At most one handler is suspended, and the page is loading while it is. *)
Definition single_flight (pg : Page) : Prop :=
  inflight pg = [] \/ (exists k, inflight pg = [k] /\ isLoading (ui pg) = true).

Definition error_invariant (pg : Page) : Prop :=
  known_error (error (ui pg))
  /\ Forall (Forall sets_known_error) (inflight pg).

(** More sample inputs. *)
Module MoreSamples.

Definition p_plan : Product.t :=
  {| Product.id := "p4"; Product.name := "Plan"; Product.description := "monthly";
     Product.price := 1200; Product.subscriptionPrice := Some 900;
     Product.stock := 3; Product.category := "plans";
     Product.images := ["/images/plan.png"]; Product.features := None;
     Product.isSubscription := true |}.

Definition signed_in (f : result Response) (g : result (option Stripe.t)) : Env :=
  Samples.world (Some "alice") f g.

Definition headless : Env :=
  {| user := Some "alice";
     NEXT_PUBLIC_SITE_URL := Some "";
     window_origin := None;
     fetch := fun _ _ => Throw (Error "Failed to fetch");
     getStripe := Ok None;
     checkStripeConfig := Throw (Error "no env");
     intl_format := Samples.yen;
     engine := Samples.v8 |}.

Definition refused (m : option string) : result Stripe.RedirectResult :=
  Ok {| Stripe.error := Some {| Stripe.message := m |} |}.

End MoreSamples.

(** * Properties *)

(** ** Tactics for running the handler *)

Ltac unfold_checkout :=
  unfold handleCheckout, checkout_chain, reject_response, checkout_catch,
    read_message, try_catch, bind, emit, await, throw, ret, trace, outcome.

(** Case analysis on every collaborator the handler consults. *)
Ltac checkout_cases :=
  unfold_checkout;
  repeat (cbn [fst snd app negb]; case_match; simplify_eq).

(** ** The URI encoding *)

Module UriFacts.

Lemma decode_encode_byte (c : ascii) (rest : string) :
  Uri.percent_decode (Uri.encode_byte c +:+ rest)
  = match Uri.percent_decode rest with
    | Some r => Some (String c r)
    | None => None
    end.
Proof.
  destruct c as [[] [] [] [] [] [] [] []]; reflexivity.
Qed.

Lemma decode_encode (s : string) :
  Uri.percent_decode (Uri.encodeURIComponent s) = Some s.
Proof.
  induction s as [|c s IH]; [reflexivity|].
  cbn [Uri.encodeURIComponent]. now rewrite decode_encode_byte, IH.
Qed.

Lemma encode_product_path (id : string) :
  Uri.encodeURIComponent ("/products/" +:+ id)
  = "%2Fproducts%2F" +:+ Uri.encodeURIComponent id.
Proof. reflexivity. Qed.

(** An identifier made of unreserved characters is left as it is. *)
Lemma encode_unreserved (s : string) :
  forallb Uri.is_unreserved (list_ascii_of_string s) = true ->
  Uri.encodeURIComponent s = s.
Proof.
  induction s as [|c s IH]; [reflexivity|].
  cbn [list_ascii_of_string forallb Uri.encodeURIComponent].
  intros [Hc Hs]%andb_true_iff. unfold Uri.encode_byte. rewrite Hc.
  cbn. now rewrite IH.
Qed.

End UriFacts.

(** ** Facts about the handler *)

Lemma get_some_truthy (j : Js.json) (k : string) (v : Js.json) :
  Js.get j k = Some v -> Js.truthy j = true.
Proof. destruct j; cbn; congruence. Qed.

Lemma and_get_string (j : Js.json) (k s : string) :
  Js.get j k = Some (Js.JStr s) -> s <> "" ->
  Js.and_get j k = Some (Js.JStr s).
Proof.
  intros Hget Hs. unfold Js.and_get.
  rewrite (get_some_truthy _ _ _ Hget), Hget. cbn.
  destruct (String.eqb_spec s ""); [contradiction | reflexivity].
Qed.

Lemma or_str_empty_default (s : string) : Js.or_str s "" = s.
Proof. unfold Js.or_str. destruct (String.eqb_spec s ""); congruence. Qed.

Lemma handleCheckout_keeps_selection env id product st :
  Forall keeps_selection (trace (handleCheckout env id product st)).
Proof. checkout_cases; cbn; repeat constructor. Qed.

(** How the handler ends: only a caught value whose message cannot be read
    makes it throw. *)
Lemma handleCheckout_outcome env id product st :
  outcome (handleCheckout env id product st)
  = match user env with
    | None => Ok tt
    | Some _ =>
        if negb (stripeAvailable st) then Ok tt
        else match outcome (checkout_chain env product st) with
             | Throw (Unreadable complaint) => Throw (Error complaint)
             | _ => Ok tt
             end
    end.
Proof.
  unfold handleCheckout. destruct (user env) as [u|]; [|reflexivity].
  destruct (negb (stripeAvailable st)); [reflexivity|].
  unfold try_catch, checkout_catch, read_message, bind, emit, throw, ret, outcome.
  destruct (checkout_chain env product st) as [t [[]|[m|complaint]]]; reflexivity.
Qed.

Lemma reject_response_throws (env : Env) (response : Response) :
  reject_response env response
  = ([], Throw (Error (non_ok_message env response))).
Proof.
  unfold reject_response, non_ok_message, try_catch, bind, await, ret, throw.
  destruct (json response) as [errorData|e]; cbn; [|reflexivity].
  destruct (Js.and_get errorData "error"); reflexivity.
Qed.

(** What the [catch] clause leaves behind when the chain throws. *)
Lemma handleCheckout_caught env id product st u m :
  user env = Some u -> stripeAvailable st = true ->
  outcome (checkout_chain env product st) = Throw (Error m) ->
  let st' := apply_events (trace (handleCheckout env id product st)) st in
  error st' = msg_prefix +:+ Js.or_str m "" /\ isLoading st' = false.
Proof.
  intros Hu Hs Hthrow st'. subst st'. unfold handleCheckout.
  rewrite Hu, Hs. cbn [negb]. revert Hthrow.
  destruct (checkout_chain env product st) as [t r] eqn:Hchain.
  unfold outcome. cbn [snd]. intros ->.
  unfold try_catch, checkout_catch, read_message, bind, emit, ret, trace.
  cbn [fst snd app].
  unfold apply_events. cbn [fold_left]. rewrite fold_left_app. cbn. auto.
Qed.

(** What is left when the chain runs to its end. *)
Lemma handleCheckout_completed env id product st u :
  user env = Some u -> stripeAvailable st = true ->
  outcome (checkout_chain env product st) = Ok tt ->
  let run := handleCheckout env id product st in
  isLoading (apply_events (trace run) st) = true /\
  count is_loading_reset (trace run) = 0%nat.
Proof.
  intros Hu Hs. unfold handleCheckout. rewrite Hu, Hs. cbn [negb].
  unfold_checkout. cbn [fst snd app negb].
  repeat (cbn [fst snd app negb]; case_match; simplify_eq);
    cbn; intros; simplify_eq; auto.
Qed.

Lemma checkout_failure_throws env product st msg :
  checkout_failure env (checkout_init env product st) msg ->
  outcome (checkout_chain env product st) = Throw (Error msg).
Proof.
  intros Hfail. unfold checkout_chain.
  destruct Hfail as
    [response Hf Hok
    |response data Hf Hok Hj Hsid
    |sessionId (response & data & Hf & Hok & Hj & Hsid) Hg
    |sessionId stripe res err (response & data & Hf & Hok & Hj & Hsid) Hg Hr He];
    unfold bind, emit, await, throw, ret, outcome; cbn zeta;
    rewrite Hf; cbn [fst snd app]; rewrite Hok; cbn [negb].
  - rewrite reject_response_throws. reflexivity.
  - rewrite Hj, Hsid. reflexivity.
  - rewrite Hj, Hsid. cbn [fst snd app]. rewrite Hg. reflexivity.
  - rewrite Hj, Hsid. cbn [fst snd app]. rewrite Hg. cbn [fst snd app].
    rewrite Hr. cbn [fst snd app]. rewrite He. reflexivity.
Qed.

Lemma checkout_success_returns env product st :
  checkout_success env (checkout_init env product st) ->
  outcome (checkout_chain env product st) = Ok tt.
Proof.
  intros (sessionId & stripe & res & (response & data & Hf & Hok & Hj & Hsid)
          & Hg & Hr & He).
  unfold checkout_chain, bind, emit, await, throw, ret, outcome. cbn zeta.
  rewrite Hf. cbn [fst snd app]. rewrite Hok. cbn [negb fst snd app].
  rewrite Hj, Hsid. cbn [fst snd app]. rewrite Hg. cbn [fst snd app].
  rewrite Hr. cbn [fst snd app]. rewrite He. reflexivity.
Qed.

Lemma msg_prefix_nonempty (s : string) : msg_prefix +:+ s <> "".
Proof. discriminate. Qed.

(** ** C4: no authenticated user *)

(** C4.  With no authenticated user, [handleCheckout] performs exactly one
    effect, the navigation to the login route whose [redirect] parameter is
    the URI-component encoding of [/products/<id>]; it issues no request,
    changes no state cell (so it sets no error) and returns normally.  The
    parameter decodes to [/products/<id>], and for an identifier of unreserved
    characters the pushed address reads [/login?redirect=%2Fproducts%2F<id>]. *)
Theorem checkout_unauthenticated_navigates env id product st :
  user env = None ->
  let run := handleCheckout env id product st in
  trace run
    = [RouterPush ("/login?redirect=" +:+ Uri.encodeURIComponent ("/products/" +:+ id))]
  /\ count is_fetch (trace run) = 0%nat
  /\ outcome run = Ok tt
  /\ apply_events (trace run) st = st
  /\ Uri.percent_decode (Uri.encodeURIComponent ("/products/" +:+ id))
     = Some ("/products/" +:+ id)
  /\ (forallb Uri.is_unreserved (list_ascii_of_string id) = true ->
      trace run = [RouterPush ("/login?redirect=%2Fproducts%2F" +:+ id)]).
Proof.
  intros Hu run. subst run. unfold handleCheckout. rewrite Hu.
  repeat split.
  - apply UriFacts.decode_encode.
  - intros Hid. unfold emit, trace. cbn [fst].
    rewrite UriFacts.encode_product_path, (UriFacts.encode_unreserved id Hid).
    reflexivity.
Qed.

Lemma checkout_unauthenticated_navigates_witness :
  let env := Samples.world None (Samples.respond true 200 Samples.session_cs_123)
               (Ok None) in
  user env = None
  /\ trace (handleCheckout env "p1" Samples.p1 Samples.ready)
     = [RouterPush "/login?redirect=%2Fproducts%2Fp1"].
Proof.
  intros env. split; [reflexivity|].
  exact (proj2 (proj2 (proj2 (proj2 (proj2
    (checkout_unauthenticated_navigates env "p1" Samples.p1 Samples.ready
       eq_refl))))) eq_refl).
Defined.

(** ** C5: payment not configured *)

(** C5.  With a user present and [stripeAvailable] false, [handleCheckout]
    performs exactly one effect, setting the inline error to the
    configuration message; no request is issued and [isLoading] keeps its
    value. *)
Theorem checkout_unconfigured_sets_error env id product st u :
  user env = Some u ->
  stripeAvailable st = false ->
  let run := handleCheckout env id product st in
  let st' := apply_events (trace run) st in
  trace run = [SetError msg_not_configured]
  /\ count is_fetch (trace run) = 0%nat
  /\ outcome run = Ok tt
  /\ error st' = msg_not_configured
  /\ isLoading st' = isLoading st.
Proof.
  intros Hu Hs run st'. subst st' run. unfold handleCheckout.
  rewrite Hu, Hs. repeat split.
Qed.

Lemma checkout_unconfigured_sets_error_witness :
  let env := Samples.world (Some "alice")
               (Samples.respond true 200 Samples.session_cs_123) (Ok None) in
  let run := handleCheckout env "p2" Samples.p_sub initial in
  user env = Some "alice"
  /\ stripeAvailable initial = false
  /\ trace run = [SetError msg_not_configured]
  /\ count is_fetch (trace run) = 0%nat
  /\ outcome run = Ok tt
  /\ error (apply_events (trace run) initial) = msg_not_configured
  /\ isLoading (apply_events (trace run) initial) = isLoading initial.
Proof.
  intros env. split; [reflexivity|]. split; [reflexivity|].
  exact (checkout_unconfigured_sets_error env "p2" Samples.p_sub initial "alice"
           eq_refl eq_refl).
Defined.

(** ** C2: the text shown for a non-OK response *)

(** C2, as stated, fails: for the HTTP 400 answer [{ error: "out of stock" }]
    the inline error is the body's string behind the page's own prefix, not
    the string alone. *)
Lemma checkout_error_text_is_prefixed :
  let env := Samples.world (Some "alice")
               (Samples.respond false 400 Samples.out_of_stock_body) (Ok None) in
  let st' := apply_events
               (trace (handleCheckout env "p2" Samples.p_sub Samples.ready))
               Samples.ready in
  Js.get Samples.out_of_stock_body "error" = Some (Js.JStr "out of stock")
  /\ error st' <> "out of stock"
  /\ error st' = "決済処理中にエラーが発生しました: out of stock"
  /\ isLoading st' = false.
Proof. cbv zeta. repeat split. discriminate. Qed.

(** C2, amended.  When a user is present, payment is available and the
    endpoint answers non-OK with a body whose [error] member is a non-empty
    string, the inline error is the page's prefix followed by exactly that
    string, and [isLoading] ends false. *)
Theorem checkout_non_ok_shows_body_error env id product st u response data s :
  user env = Some u ->
  stripeAvailable st = true ->
  fetch env checkout_url (checkout_init env product st) = Ok response ->
  ok response = false ->
  json response = Ok data ->
  Js.get data "error" = Some (Js.JStr s) ->
  s <> "" ->
  let st' := apply_events (trace (handleCheckout env id product st)) st in
  error st' = msg_prefix +:+ s /\ isLoading st' = false.
Proof.
  intros Hu Hs Hf Hok Hj Hget Hne.
  assert (Hmsg : non_ok_message env response = s).
  { unfold non_ok_message. rewrite Hj, (and_get_string _ _ _ Hget Hne).
    reflexivity. }
  pose proof (checkout_failure_throws env product st _
                (NonOkResponse env _ response Hf Hok)) as Hthrow.
  rewrite Hmsg in Hthrow.
  destruct (handleCheckout_caught env id product st u _ Hu Hs Hthrow) as [He Hl].
  rewrite or_str_empty_default in He. auto.
Qed.

Lemma checkout_non_ok_shows_body_error_witness :
  let env := Samples.world (Some "alice")
               (Samples.respond false 400 Samples.out_of_stock_body) (Ok None) in
  let st' := apply_events
               (trace (handleCheckout env "p2" Samples.p_sub Samples.ready))
               Samples.ready in
  "out of stock" <> ""
  /\ error st' = msg_prefix +:+ "out of stock" /\ isLoading st' = false.
Proof.
  intros env. split; [discriminate|].
  exact (checkout_non_ok_shows_body_error env "p2" Samples.p_sub Samples.ready
           "alice" _ Samples.out_of_stock_body "out of stock"
           eq_refl eq_refl eq_refl eq_refl eq_refl eq_refl
           ltac:(discriminate)).
Defined.

(** ** C3: every failure of the chain is recovered *)

(** C3.  Once the preconditions pass: whenever the chain throws an error
    with a message, the inline error becomes the prefixed message (never
    empty) and [isLoading] becomes false; each of the four listed failures
    makes the chain throw such an error, with its own message; an OK answer without a session identifier raises the
    missing-session-id message; and when the chain succeeds [isLoading] stays
    true and no event resets it. *)
Theorem checkout_failures_recovered env id product st u :
  user env = Some u ->
  stripeAvailable st = true ->
  let init := checkout_init env product st in
  let run := handleCheckout env id product st in
  let st' := apply_events (trace run) st in
  (forall m, outcome (checkout_chain env product st) = Throw (Error m) ->
     error st' = msg_prefix +:+ Js.or_str m ""
     /\ error st' <> "" /\ isLoading st' = false)
  /\ (forall msg, checkout_failure env init msg ->
        error st' = msg_prefix +:+ msg /\ error st' <> "" /\ isLoading st' = false)
  /\ (forall response data,
        fetch env checkout_url init = Ok response ->
        ok response = true ->
        json response = Ok data ->
        Js.and_get data "sessionId" = None ->
        outcome (checkout_chain env product st) = Throw (Error msg_no_session_id)
        /\ error st' = msg_prefix +:+ msg_no_session_id
        /\ isLoading st' = false)
  /\ (checkout_success env init ->
        outcome run = Ok tt
        /\ isLoading st' = true
        /\ count is_loading_reset (trace run) = 0%nat).
Proof.
  intros Hu Hs init run st'.
  assert (Hcaught : forall m,
            outcome (checkout_chain env product st) = Throw (Error m) ->
            error st' = msg_prefix +:+ Js.or_str m ""
            /\ error st' <> "" /\ isLoading st' = false).
  { intros m He.
    destruct (handleCheckout_caught env id product st u m Hu Hs He) as [H1 H2].
    fold run in H1, H2. fold st' in H1, H2.
    repeat split; [exact H1| |exact H2].
    rewrite H1. apply msg_prefix_nonempty. }
  assert (Hfail : forall msg, checkout_failure env init msg ->
            error st' = msg_prefix +:+ msg /\ error st' <> "" /\ isLoading st' = false).
  { intros msg Hmsg.
    destruct (Hcaught _ (checkout_failure_throws env product st msg Hmsg))
      as (H1 & H2 & H3).
    rewrite or_str_empty_default in H1. auto. }
  split; [exact Hcaught|]. split; [exact Hfail|]. split.
  - intros response data Hf Hok Hj Hsid.
    pose proof (MissingSessionId env init response data Hf Hok Hj Hsid) as Hm.
    split; [apply checkout_failure_throws; exact Hm|].
    destruct (Hfail _ Hm) as (H1 & _ & H3). auto.
  - intros Hok. apply checkout_success_returns in Hok. split.
    + subst run. rewrite handleCheckout_outcome, Hu, Hs, Hok. reflexivity.
    + apply (handleCheckout_completed env id product st u Hu Hs). exact Hok.
Qed.

Lemma checkout_failures_recovered_witness :
  let env := Samples.world (Some "alice")
               (Samples.respond true 200 (Js.JObj [])) (Ok None) in
  let st' := apply_events
               (trace (handleCheckout env "p2" Samples.p_sub Samples.ready))
               Samples.ready in
  user env = Some "alice"
  /\ stripeAvailable Samples.ready = true
  /\ error st' = msg_prefix +:+ msg_no_session_id
  /\ isLoading st' = false.
Proof.
  intros env. split; [reflexivity|]. split; [reflexivity|].
  exact (proj2 (proj1 (proj2 (proj2
    (checkout_failures_recovered env "p2" Samples.p_sub Samples.ready "alice"
       eq_refl eq_refl))) _ (Js.JObj []) eq_refl eq_refl eq_refl eq_refl)).
Defined.

(** ** C7: an issued session is handed to the redirect *)

(** What the handler does once a session is issued and a client is there. *)
Lemma handleCheckout_session_trace env id product st u sessionId stripe :
  user env = Some u ->
  stripeAvailable st = true ->
  session_issued env (checkout_init env product st) sessionId ->
  getStripe env = Ok (Some stripe) ->
  exists tail,
    trace (handleCheckout env id product st)
    = (session_prelude env product st
       ++ [ Console LogLevel
              "Stripe初期化完了、チェックアウトページへリダイレクトします...";
            RedirectToCheckout sessionId ] ++ tail)%list
    /\ (tail = []
        \/ tail = [ Console ErrorLevel "決済エラー:" ]
        \/ (exists m, tail = [ Console ErrorLevel "決済エラー:"; SetError m;
                               SetIsLoading false ])
        \/ (exists m, tail = [ Console ErrorLevel "リダイレクトエラー:";
                               Console ErrorLevel "決済エラー:"; SetError m;
                               SetIsLoading false ])).
Proof.
  intros Hu Hs (response & data & Hf & Hok & Hj & Hsid) Hg.
  unfold_checkout. unfold session_prelude. cbn zeta.
  rewrite Hu, Hs. cbn [fst snd app negb].
  rewrite Hf. cbn [fst snd app negb]. rewrite Hok. cbn [fst snd app negb].
  rewrite Hj, Hsid. cbn [fst snd app negb]. rewrite Hg. cbn [fst snd app negb].
  destruct (Stripe.redirectToCheckout stripe sessionId) as [res|[m|complaint]];
    cbn [fst snd app negb].
  - destruct (Stripe.error res) as [err|]; cbn [fst snd app negb].
    + eexists. split; [reflexivity|]. right. right. right. eexists. reflexivity.
    + exists []. split; [reflexivity|]. left. reflexivity.
  - eexists. split; [reflexivity|]. right. right. left. eexists. reflexivity.
  - eexists. split; [reflexivity|]. right. left. reflexivity.
Qed.

(** What the handler does once a session is issued and the factory resolves
    to null. *)
Lemma handleCheckout_no_client_trace env id product st u sessionId :
  user env = Some u ->
  stripeAvailable st = true ->
  session_issued env (checkout_init env product st) sessionId ->
  getStripe env = Ok None ->
  trace (handleCheckout env id product st)
  = (session_prelude env product st
     ++ [ Console ErrorLevel "決済エラー:";
          SetError (msg_prefix +:+ msg_stripe_init);
          SetIsLoading false ])%list.
Proof.
  intros Hu Hs (response & data & Hf & Hok & Hj & Hsid) Hg.
  unfold_checkout. unfold session_prelude. cbn zeta.
  rewrite Hu, Hs. cbn [fst snd app negb].
  rewrite Hf. cbn [fst snd app negb]. rewrite Hok. cbn [fst snd app negb].
  rewrite Hj, Hsid. cbn [fst snd app negb]. rewrite Hg. reflexivity.
Qed.

(** The factory is called once for an issued session, whatever it answers. *)
Lemma handleCheckout_factory_once env id product st u sessionId :
  user env = Some u ->
  stripeAvailable st = true ->
  session_issued env (checkout_init env product st) sessionId ->
  count is_getStripe (trace (handleCheckout env id product st)) = 1%nat.
Proof.
  intros Hu Hs (response & data & Hf & Hok & Hj & Hsid).
  unfold_checkout. cbn zeta.
  rewrite Hu, Hs. cbn [fst snd app negb].
  rewrite Hf. cbn [fst snd app negb]. rewrite Hok. cbn [fst snd app negb].
  rewrite Hj, Hsid.
  repeat (cbn [fst snd app negb]; case_match; simplify_eq); reflexivity.
Qed.

(** C7, as stated, fails: the endpoint answers OK with [cs_123], yet the
    factory resolves to null and the redirect is never invoked. *)
Lemma checkout_session_without_client_never_redirects :
  let env := Samples.world (Some "alice")
               (Samples.respond true 200 Samples.session_cs_123) (Ok None) in
  let run := handleCheckout env "p2" Samples.p_sub Samples.ready in
  session_issued env (checkout_init env Samples.p_sub Samples.ready)
    (Js.JStr "cs_123")
  /\ count is_getStripe (trace run) = 1%nat
  /\ count is_redirect (trace run) = 0%nat
  /\ isLoading (apply_events (trace run) Samples.ready) = false.
Proof.
  cbv zeta. split; [|repeat split].
  eexists _, Samples.session_cs_123. repeat split.
Qed.

(** C7, amended.  When the endpoint answers OK with a session identifier,
    the factory is invoked exactly once.  When it yields a client, the
    redirect is invoked exactly once, with that identifier, and if the
    redirect reports no error [isLoading] is still true afterwards and was
    never reset.  When it yields no client, the redirect is not invoked; the
    client-initialisation message is shown and [isLoading] is reset. *)
Theorem checkout_session_redirects_once env id product st u sessionId :
  user env = Some u ->
  stripeAvailable st = true ->
  session_issued env (checkout_init env product st) sessionId ->
  let run := handleCheckout env id product st in
  let st' := apply_events (trace run) st in
  count is_getStripe (trace run) = 1%nat
  /\ (forall stripe,
        getStripe env = Ok (Some stripe) ->
        count is_redirect (trace run) = 1%nat
        /\ List.filter is_redirect (trace run) = [RedirectToCheckout sessionId]
        /\ (forall res,
              Stripe.redirectToCheckout stripe sessionId = Ok res ->
              Stripe.error res = None ->
              isLoading st' = true
              /\ count is_loading_reset (trace run) = 0%nat))
  /\ (getStripe env = Ok None ->
        count is_redirect (trace run) = 0%nat
        /\ error st' = msg_prefix +:+ msg_stripe_init
        /\ isLoading st' = false).
Proof.
  intros Hu Hs Hsession run st'.
  split; [exact (handleCheckout_factory_once env id product st u sessionId
                   Hu Hs Hsession)|]. split.
  - intros stripe Hg.
    destruct (handleCheckout_session_trace env id product st u sessionId stripe
                Hu Hs Hsession Hg) as (tail & Htrace & Htail).
    fold run in Htrace.
    assert (Hfilter : List.filter is_redirect (trace run)
                      = [RedirectToCheckout sessionId]).
    { rewrite Htrace.
      destruct Htail as [->|[->|[[m ->]|[m ->]]]]; reflexivity. }
    split; [unfold count; rewrite Hfilter; reflexivity|].
    split; [exact Hfilter|].
    intros res Hr He.
    apply (handleCheckout_completed env id product st u Hu Hs).
    apply checkout_success_returns. exists sessionId, stripe, res. auto.
  - intros Hg.
    pose proof (handleCheckout_no_client_trace env id product st u sessionId
                  Hu Hs Hsession Hg) as Htrace.
    fold run in Htrace. subst st'. rewrite Htrace.
    repeat split.
Qed.

Lemma checkout_session_redirects_once_witness :
  let with_client := Samples.world (Some "alice")
                       (Samples.respond true 200 Samples.session_cs_123)
                       (Ok (Some (Samples.client Samples.redirected))) in
  let without := Samples.world (Some "alice")
                   (Samples.respond true 200 Samples.session_cs_123) (Ok None) in
  user with_client = Some "alice"
  /\ stripeAvailable Samples.ready = true
  /\ List.filter is_redirect
       (trace (handleCheckout with_client "p2" Samples.p_sub Samples.ready))
     = [RedirectToCheckout (Js.JStr "cs_123")]
  /\ getStripe without = Ok None
  /\ count is_redirect
       (trace (handleCheckout without "p2" Samples.p_sub Samples.ready))
     = 0%nat.
Proof.
  intros with_client without.
  split; [reflexivity|]. split; [reflexivity|].
  assert (Hsession : forall g,
            session_issued (Samples.world (Some "alice")
                              (Samples.respond true 200 Samples.session_cs_123) g)
              (checkout_init (Samples.world (Some "alice")
                                (Samples.respond true 200 Samples.session_cs_123) g)
                 Samples.p_sub Samples.ready)
              (Js.JStr "cs_123")).
  { intros g. eexists _, Samples.session_cs_123. repeat split. }
  pose proof (checkout_session_redirects_once with_client "p2" Samples.p_sub
                Samples.ready "alice" (Js.JStr "cs_123")
                eq_refl eq_refl (Hsession _)) as (_ & Hsome & _).
  pose proof (checkout_session_redirects_once without "p2" Samples.p_sub
                Samples.ready "alice" (Js.JStr "cs_123")
                eq_refl eq_refl (Hsession _)) as (_ & _ & Hnone).
  split; [exact (proj1 (proj2 (Hsome _ eq_refl)))|].
  split; [reflexivity|].
  exact (proj1 (Hnone eq_refl)).
Defined.

(** ** The buttons of the detail view *)

Lemma buttons_thumbnails product st (f : nat -> nat) (l : list string) :
  flat_map buttons (imap (fun i img => thumbnail product st (f i) img) l)
  = imap (fun i _ => (OnSelectImage (f i), false)) l.
Proof.
  revert f. induction l as [|img l IH]; intros f; [reflexivity|].
  cbn. f_equal. apply (IH (f ∘ S)).
Qed.

Lemma buttons_gallery product st :
  buttons (gallery product st) = thumbnail_buttons product.
Proof.
  unfold gallery, thumbnail_buttons, when.
  destruct (1 <? length (Product.images product))%nat; [|reflexivity].
  cbn. rewrite app_nil_r.
  apply (buttons_thumbnails product st (fun i => i)).
Qed.

Lemma buttons_features product : flat_map buttons (features_block product) = [].
Proof.
  unfold features_block, when. destruct (Product.features product) as [fs|];
    [|reflexivity].
  destruct (0 <? length fs)%nat; [|reflexivity].
  cbn. rewrite app_nil_r. induction fs; [reflexivity|]. cbn. assumption.
Qed.

Lemma buttons_info_column env product st :
  buttons (info_column env product st)
  = (purchase_buttons product
     ++ [ (OnCheckout, isLoading st || (Product.stock product <=? 0)) ])%list.
Proof.
  unfold info_column. cbn [buttons].
  rewrite !flat_map_app, buttons_features.
  unfold purchase_buttons, purchase_block, error_block, login_hint,
    price_display, when.
  destruct (Product.isSubscription product),
    (negb (String.eqb (error st) "")),
    (negb (bool_decide (is_Some (user env))));
    cbn; destruct (purchaseType_eqb (purchaseType st) Subscription); reflexivity.
Qed.

Lemma buttons_detail_view env product st :
  buttons (detail_view env product st)
  = (thumbnail_buttons product ++ purchase_buttons product
     ++ [ (OnCheckout, isLoading st || (Product.stock product <=? 0)) ])%list.
Proof.
  unfold detail_view. cbn [buttons flat_map].
  rewrite buttons_gallery, buttons_info_column, !app_nil_r. reflexivity.
Qed.

Lemma thumbnail_button_in_range product i d :
  In (OnSelectImage i, d) (thumbnail_buttons product) ->
  d = false /\ (i < length (Product.images product))%nat.
Proof.
  unfold thumbnail_buttons.
  destruct (1 <? length (Product.images product))%nat; [|intros []].
  intros Hin. apply list_elem_of_In, elem_of_lookup_imap in Hin.
  destruct Hin as (j & img & Heq & Hlook). simplify_eq.
  split; [reflexivity|]. eapply lookup_lt_Some, Hlook.
Qed.

(** Where each handler can appear in the detail view. *)
Lemma detail_view_buttons_inv env product st h d :
  In (h, d) (buttons (detail_view env product st)) ->
  (exists i, h = OnSelectImage i /\ d = false
             /\ (i < length (Product.images product))%nat)
  \/ (exists t, h = OnSelectPurchase t /\ d = false
                /\ Product.isSubscription product = true)
  \/ (h = OnCheckout /\ d = (isLoading st || (Product.stock product <=? 0))).
Proof.
  rewrite buttons_detail_view, !in_app_iff.
  intros [Hin|[Hin|[Hin|[]]]].
  - left. assert (exists i, h = OnSelectImage i) as [i ->].
    { unfold thumbnail_buttons in Hin.
      destruct (1 <? length (Product.images product))%nat; [|destruct Hin].
      apply list_elem_of_In, elem_of_lookup_imap in Hin.
      destruct Hin as (j & img & Heq & _). simplify_eq. eauto. }
    exists i. split; [reflexivity|]. eapply thumbnail_button_in_range, Hin.
  - right. left. unfold purchase_buttons in Hin.
    destruct (Product.isSubscription product); [|destruct Hin].
    destruct Hin as [Heq|[Heq|[]]]; simplify_eq; eauto.
  - right. right. simplify_eq. auto.
Qed.

(** ** C10: the operation itself checks neither stock nor loading *)

Lemma handleCheckout_sync_part env id product st u :
  user env = Some u ->
  stripeAvailable st = true ->
  sync_part (trace (handleCheckout env id product st))
  = [ SetIsLoading true; SetError "";
      Console LogLevel "決済処理を開始します...";
      Fetch checkout_url (checkout_init env product st) ].
Proof.
  intros Hu Hs. unfold_checkout. cbn zeta. rewrite Hu, Hs.
  repeat (cbn [fst snd app negb]; case_match; simplify_eq); reflexivity.
Qed.

Lemma sync_part_incl (t : list event) (ev : event) :
  In ev (sync_part t) -> In ev t.
Proof.
  induction t as [|a t IH]; [intros []|].
  destruct a; cbn; intros [H|H]; auto; destruct H.
Qed.

(** C10.  For a signed-in user with payment available, [handleCheckout]
    issues the request to the checkout endpoint whatever the stock count and
    the loading flag are, already in its synchronous part; the only guard on
    stock and loading is the [disabled] attribute of the trigger control. *)
Theorem checkout_operation_is_unguarded env id product st u :
  user env = Some u ->
  stripeAvailable st = true ->
  Product.stock product <= 0 \/ isLoading st = true ->
  let run := handleCheckout env id product st in
  In (Fetch checkout_url (checkout_init env product st)) (trace run)
  /\ sync_part (trace run)
     = [ SetIsLoading true; SetError "";
         Console LogLevel "決済処理を開始します...";
         Fetch checkout_url (checkout_init env product st) ]
  /\ In (OnCheckout, true) (buttons (detail_view env product st))
  /\ ~ clickable (detail_view env product st) OnCheckout.
Proof.
  intros Hu Hs Hguard run.
  pose proof (handleCheckout_sync_part env id product st u Hu Hs) as Hsync.
  fold run in Hsync.
  assert (Hdis : isLoading st || (Product.stock product <=? 0) = true).
  { destruct Hguard as [Hstock| ->]; [|reflexivity].
    apply orb_true_iff. right. apply Z.leb_le. exact Hstock. }
  repeat split.
  - apply sync_part_incl. rewrite Hsync. cbn. auto.
  - exact Hsync.
  - rewrite buttons_detail_view, <- Hdis, !in_app_iff. cbn. auto.
  - intros Hclick. apply detail_view_buttons_inv in Hclick.
    destruct Hclick as [(i & Hh & _)|[(t & Hh & _)|[_ Hd]]];
      [discriminate|discriminate|congruence].
Qed.

Lemma checkout_operation_is_unguarded_witness :
  let env := Samples.world (Some "alice")
               (Samples.respond true 200 Samples.session_cs_123) (Ok None) in
  Product.stock Samples.p1 <= 0
  /\ In (Fetch checkout_url (checkout_init env Samples.p1 Samples.ready))
        (trace (handleCheckout env "p1" Samples.p1 Samples.ready))
  /\ ~ clickable (detail_view env Samples.p1 Samples.ready) OnCheckout.
Proof.
  intros env.
  assert (Hstock : Product.stock Samples.p1 <= 0) by (cbn; lia).
  split; [exact Hstock|].
  pose proof (checkout_operation_is_unguarded env "p1" Samples.p1 Samples.ready
                "alice" eq_refl eq_refl (or_introl Hstock)) as H.
  exact (conj (proj1 H) (proj2 (proj2 (proj2 H)))).
Defined.

(** ** C1: the price display in subscription mode *)

Lemma price_display_with_subscription_price env product st sp :
  Product.isSubscription product = true ->
  purchaseType st = Subscription ->
  Product.subscriptionPrice product = Some sp ->
  price_display env product st
  = Elem "div" "mb-6"
      [ Elem "span" "text-2xl font-bold text-primary"
          [ Text (formatPrice env (Product.price product)) ];
        Elem "span" "text-lg ml-2 text-gray-600"
          [ Text (formatPrice env sp); Text "/月" ] ].
Proof.
  intros Hsub Hmode Hsp. unfold price_display, Js.or_num.
  rewrite Hsub, Hmode, Hsp. cbn. destruct (Z.eqb_spec sp 0); subst; reflexivity.
Qed.

(** C1, on the code.  For a subscription-eligible product without a
    subscription price, in subscription mode, the second price span shows the
    formatted amount 0 (per month) next to the base price, while the checkout
    request of the same page charges the base price. *)
Theorem price_display_without_subscription_price env product st :
  Product.isSubscription product = true ->
  purchaseType st = Subscription ->
  Product.subscriptionPrice product = None ->
  price_display env product st
  = Elem "div" "mb-6"
      [ Elem "span" "text-2xl font-bold text-primary"
          [ Text (formatPrice env (Product.price product)) ];
        Elem "span" "text-lg ml-2 text-gray-600"
          [ Text (formatPrice env 0); Text "/月" ] ]
  /\ resolved_price product (purchaseType st) = Product.price product.
Proof.
  intros Hsub Hmode Hsp. unfold price_display, resolved_price, Js.or_num.
  rewrite Hsub, Hmode, Hsp. split; reflexivity.
Qed.

Lemma price_display_without_subscription_price_witness :
  let env := Samples.world None (Throw (Error "offline")) (Ok None) in
  let st := apply_event Samples.ready (SetPurchaseType Subscription) in
  Product.isSubscription Samples.p_sub = true
  /\ Product.subscriptionPrice Samples.p_sub = None
  /\ text_of (price_display env Samples.p_sub st) = "JPY 1000JPY 0/月"
  /\ resolved_price Samples.p_sub (purchaseType st) = 1000.
Proof.
  intros env st. split; [reflexivity|]. split; [reflexivity|].
  destruct (price_display_without_subscription_price env Samples.p_sub st
              eq_refl eq_refl eq_refl) as [Hview Hprice].
  split; [rewrite Hview; reflexivity | exact Hprice].
Defined.

(** ** C6: the product resolver *)

Lemma find_product_first_match products id q :
  find_product products id = Some q <->
  exists before after,
    products = (before ++ q :: after)%list
    /\ Product.id q = id
    /\ Forall (fun p => Product.id p <> id) before.
Proof.
  unfold find_product. induction products as [|p ps IH]; cbn.
  - split; [discriminate|]. intros (before & after & Heq & _).
    destruct before; discriminate.
  - destruct (String.eqb_spec (Product.id p) id) as [Hid|Hid].
    + split.
      * intros [= ->]. exists [], ps. auto.
      * intros ([|b before] & after & Heq & Hq & Hall); simplify_eq/=;
          [reflexivity|]. apply Forall_cons in Hall as [Hb _]. contradiction.
    + rewrite IH. split.
      * intros (before & after & -> & Hq & Hall).
        exists (p :: before), after. auto.
      * intros ([|b before] & after & Heq & Hq & Hall); simplify_eq/=.
        apply Forall_cons in Hall as [_ Hall]. eauto.
Qed.

Lemma find_product_present products p :
  In p products ->
  exists q, find_product products (Product.id p) = Some q
            /\ In q products /\ Product.id q = Product.id p.
Proof.
  intros Hin. unfold find_product.
  destruct (find _ products) as [q|] eqn:Hfind.
  - apply find_some in Hfind as [Hq Heq]. apply String.eqb_eq in Heq. eauto.
  - pose proof (find_none _ _ Hfind p Hin) as Hne. cbn in Hne.
    rewrite String.eqb_refl in Hne. discriminate.
Qed.

Lemma find_product_absent products id :
  (forall p, In p products -> Product.id p <> id) ->
  find_product products id = None.
Proof.
  intros Habs. unfold find_product.
  destruct (find _ products) as [q|] eqn:Hfind; [|reflexivity].
  apply find_some in Hfind as [Hq Heq]. apply String.eqb_eq in Heq.
  destruct (Habs q Hq Heq).
Qed.

Lemma unique_by_id (products : list Product.t) p q :
  List.NoDup (map Product.id products) ->
  In p products -> In q products -> Product.id p = Product.id q -> p = q.
Proof.
  induction products as [|r ps IH]; cbn; [intros _ []|].
  intros Hnd. apply NoDup_cons_iff in Hnd as [Hr Hnd].
  intros [->|Hp] [->|Hq] Hid; auto.
  - destruct Hr. rewrite Hid. apply in_map. exact Hq.
  - destruct Hr. rewrite <- Hid. apply in_map. exact Hp.
Qed.

(** C6.  For an identifier carried by some catalog record the resolver
    returns a record of the catalog with that identifier, the first one in
    catalog order, which is the record itself when identifiers are unique;
    for any other identifier it returns none and the component renders the
    not-found view, whose only button is the enabled go-back button, whose
    handler calls [router.back()] and returns normally. *)
Theorem resolver_returns_match_or_not_found (products : list Product.t) :
  (forall p, In p products ->
     exists q, find_product products (Product.id p) = Some q
               /\ In q products /\ Product.id q = Product.id p)
  /\ (forall id q,
        find_product products id = Some q <->
        exists before after,
          products = (before ++ q :: after)%list
          /\ Product.id q = id
          /\ Forall (fun p => Product.id p <> id) before)
  /\ (List.NoDup (map Product.id products) ->
      forall p, In p products -> find_product products (Product.id p) = Some p)
  /\ (forall env id st,
        (forall p, In p products -> Product.id p <> id) ->
        find_product products id = None
        /\ ProductDetail products env id st = not_found_view)
  /\ buttons not_found_view = [(OnBack, false)]
  /\ goBack = ([RouterBack], Ok tt).
Proof.
  split; [apply find_product_present|].
  split; [apply find_product_first_match|].
  split; [|split; [|split; reflexivity]].
  - intros Hnd p Hin.
    destruct (find_product_present products p Hin) as (q & Hfind & Hq & Hid).
    rewrite Hfind. f_equal. symmetry.
    apply (unique_by_id products p q Hnd Hin Hq). congruence.
  - intros env id st Habs. unfold ProductDetail.
    rewrite (find_product_absent products id Habs). auto.
Qed.

Lemma resolver_returns_match_or_not_found_witness :
  List.NoDup (map Product.id Samples.catalog)
  /\ In Samples.p_sub Samples.catalog
  /\ find_product Samples.catalog "p2" = Some Samples.p_sub
  /\ (forall p, In p Samples.catalog -> Product.id p <> "p9")
  /\ ProductDetail Samples.catalog
       (Samples.world None (Throw (Error "offline")) (Ok None)) "p9" initial
     = not_found_view.
Proof.
  assert (Hnd : List.NoDup (map Product.id Samples.catalog)).
  { cbn. repeat constructor; cbn; intuition discriminate. }
  assert (Hin : In Samples.p_sub Samples.catalog) by (cbn; auto).
  assert (Habs : forall p, In p Samples.catalog -> Product.id p <> "p9").
  { cbn. intros p [<-|[<-|[<-|[]]]]; discriminate. }
  pose proof (resolver_returns_match_or_not_found Samples.catalog)
    as (_ & _ & Huniq & Hnone & _).
  split; [exact Hnd|]. split; [exact Hin|].
  split; [exact (Huniq Hnd Samples.p_sub Hin)|].
  split; [exact Habs|].
  exact (proj2 (Hnone (Samples.world None (Throw (Error "offline")) (Ok None))
                  "p9" initial Habs)).
Defined.

(** ** Invariants of the page *)

Lemma apply_events_keeps_selection (t : list event) (st : State) :
  Forall keeps_selection t ->
  activeImageIndex (apply_events t st) = activeImageIndex st
  /\ purchaseType (apply_events t st) = purchaseType st.
Proof.
  unfold apply_events. revert st.
  induction t as [|ev t IH]; intros st Hall; [auto|].
  apply Forall_cons in Hall as [Hev Hall]. cbn [fold_left].
  destruct (IH (apply_event st ev) Hall) as [-> ->].
  destruct ev; cbn in Hev |- *; auto; contradiction.
Qed.

Lemma sync_part_Forall (P : event -> Prop) (t : list event) :
  Forall P t -> Forall P (sync_part t).
Proof.
  induction 1 as [|ev t Hev Hall IH]; [constructor|].
  destruct ev; cbn; constructor; auto.
Qed.

Lemma continuation_Forall (P : event -> Prop) (t k : list event) :
  Forall P t -> continuation t = Some k -> Forall P k.
Proof.
  induction 1 as [|ev t Hev Hall IH]; [discriminate|].
  destruct ev; cbn; auto. intros [= <-]. exact Hall.
Qed.

Lemma checkStripe_trace env :
  exists lvl text b,
    trace (checkStripe env) = [Console lvl text; SetStripeAvailable b].
Proof.
  unfold checkStripe, try_catch, bind, emit, await, trace.
  destruct (checkStripeConfig env) as [[]|e]; cbn; eauto.
Qed.

Lemma run_handler_keeps_selection env id product st h :
  (forall i, h <> OnSelectImage i) ->
  (forall t, h <> OnSelectPurchase t) ->
  Forall keeps_selection (trace (run_handler env id product st h)).
Proof.
  intros Himg Hmode. destruct h; cbn.
  - repeat constructor.
  - destruct (Himg index eq_refl).
  - destruct (Hmode t eq_refl).
  - apply handleCheckout_keeps_selection.
Qed.

Lemma index_invariant_step id product pg pg' :
  index_invariant product pg -> step id product pg pg' ->
  index_invariant product pg'.
Proof.
  intros [Hidx Hks] Hstep. destruct Hstep as [env pg|env pg h Hclick t|pg ks1 ks2 k Hin].
  - destruct (checkStripe_trace env) as (lvl & text & b & ->).
    split; [exact Hidx|exact Hks].
  - apply detail_view_buttons_inv in Hclick.
    destruct Hclick as [(i & -> & _ & Hi)|[(m & -> & _ & _)|[-> _]]].
    + split; [exact Hi|exact Hks].
    + split; [exact Hidx|exact Hks].
    + assert (Ht : Forall keeps_selection t)
        by apply handleCheckout_keeps_selection.
      split; cbn [ui inflight].
      * destruct (apply_events_keeps_selection (sync_part t) (ui pg)
                    (sync_part_Forall _ _ Ht)) as [-> _]. exact Hidx.
      * unfold suspend. destruct (continuation t) as [k|] eqn:Hk; [|exact Hks].
        constructor; [|exact Hks]. eapply continuation_Forall; eauto.
  - rewrite Hin in Hks. apply Forall_app in Hks as [Hks1 Hks2].
    apply Forall_cons in Hks2 as [Hk Hks2].
    split; cbn [ui inflight].
    + destruct (apply_events_keeps_selection k (ui pg) Hk) as [-> _]. exact Hidx.
    + apply Forall_app. auto.
Qed.

Lemma reachable_index_invariant id product pg :
  Product.images product <> [] ->
  reachable id product pg -> index_invariant product pg.
Proof.
  intros Hne. revert pg.
  apply (rtc_ind_r (index_invariant product) mounted).
  - split; [|constructor]. cbn. destruct (Product.images product);
      [contradiction|cbn; lia].
  - intros pg pg' _ Hstep IH. eapply index_invariant_step; eauto.
Qed.

Lemma idle_step id product pg pg' :
  Product.stock product <= 0 ->
  idle pg -> step id product pg pg' -> idle pg'.
Proof.
  intros Hstock [Hload Hfly] Hstep.
  destruct Hstep as [env pg|env pg h Hclick t|pg ks1 ks2 k Hin].
  - destruct (checkStripe_trace env) as (lvl & text & b & ->).
    split; [exact Hload|exact Hfly].
  - apply detail_view_buttons_inv in Hclick.
    destruct Hclick as [(i & -> & _ & Hi)|[(m & -> & _ & _)|[-> Hd]]].
    + split; [exact Hload|exact Hfly].
    + split; [exact Hload|exact Hfly].
    + apply Z.leb_le in Hstock. rewrite Hstock, orb_true_r in Hd. discriminate.
  - rewrite Hfly in Hin. destruct ks1; discriminate.
Qed.

Lemma reachable_idle id product pg :
  Product.stock product <= 0 -> reachable id product pg -> idle pg.
Proof.
  intros Hstock. revert pg. apply (rtc_ind_r idle mounted).
  - split; reflexivity.
  - intros pg pg' _ Hstep IH. eapply idle_step; eauto.
Qed.

(** ** C8: the gallery index *)

(** C8, as stated, fails: a product without images is displayed with the
    initial index 0, which is not below the image count 0, and the main image
    has no source. *)
Lemma active_image_index_invalid_without_images :
  reachable "p3" Samples.p_bare mounted
  /\ ~ (activeImageIndex (ui mounted) < length (Product.images Samples.p_bare))%nat
  /\ main_image Samples.p_bare (ui mounted) = Image None "Mug" "rounded-lg".
Proof.
  split; [apply rtc_refl|]. split; [cbn; lia|reflexivity].
Qed.

(** C8, amended.  For a product with at least one image: the index starts
    at 0; in every reachable state it is below the image count, so the main
    image has a source; every thumbnail button of the view carries an index
    [i] below the image count, and clicking it sets the index to [i] and the
    main image source to [images[i]]. *)
Theorem active_image_index_valid id product :
  Product.images product <> [] ->
  activeImageIndex initial = 0%nat
  /\ (forall pg, reachable id product pg ->
        (activeImageIndex (ui pg) < length (Product.images product))%nat
        /\ exists image,
             main_image product (ui pg)
             = Image (Some image) (Product.name product) "rounded-lg")
  /\ (forall env st i d,
        In (OnSelectImage i, d) (buttons (detail_view env product st)) ->
        let st' := apply_events
                     (trace (run_handler env id product st (OnSelectImage i))) st in
        (i < length (Product.images product))%nat
        /\ d = false
        /\ activeImageIndex st' = i
        /\ main_image product st'
           = Image (Product.images product !! i) (Product.name product)
               "rounded-lg").
Proof.
  intros Hne. split; [reflexivity|]. split.
  - intros pg Hreach.
    destruct (reachable_index_invariant id product pg Hne Hreach) as [Hidx _].
    split; [exact Hidx|].
    destruct (lookup_lt_is_Some_2 _ _ Hidx) as [image Himage].
    exists image. unfold main_image. rewrite Himage. reflexivity.
  - intros env st i d Hin st'.
    apply detail_view_buttons_inv in Hin.
    destruct Hin as [(j & Hj & Hd & Hlt)|[(t & Ht & _)|[Hc _]]];
      [|discriminate|discriminate].
    injection Hj as <-. repeat split; assumption.
Qed.

Lemma active_image_index_valid_witness :
  let env := Samples.world None (Throw (Error "offline")) (Ok None) in
  let pg := mkPage (apply_event initial (SetActiveImageIndex 1)) [] in
  Product.images Samples.p_sub <> []
  /\ reachable "p2" Samples.p_sub pg
  /\ (activeImageIndex (ui pg) < length (Product.images Samples.p_sub))%nat.
Proof.
  intros env pg.
  assert (Hne : Product.images Samples.p_sub <> []) by discriminate.
  assert (Hreach : reachable "p2" Samples.p_sub pg).
  { apply rtc_once.
    refine (step_click "p2" Samples.p_sub env mounted (OnSelectImage 1) _).
    unfold clickable. cbn. auto. }
  split; [exact Hne|]. split; [exact Hreach|].
  exact (proj1 (proj1 (proj2 (active_image_index_valid "p2" Samples.p_sub Hne))
                  pg Hreach)).
Defined.

(** ** C9: the trigger control *)

(** C9.  In any state, [handleCheckout] can be triggered from the view only
    when stock is positive and [isLoading] is false.  For a product with no
    stock, in every reachable state and whatever the user and the
    payment-availability cell are, the checkout control is disabled and
    labelled out-of-stock. *)
Theorem checkout_control_guarded id product :
  (forall env st,
     clickable (detail_view env product st) OnCheckout ->
     0 < Product.stock product /\ isLoading st = false)
  /\ (Product.stock product <= 0 ->
      forall pg, reachable id product pg ->
      forall env,
        (exists cls,
           checkout_button product (ui pg)
           = Button cls OnCheckout true [ Text "在庫切れ" ])
        /\ (forall d,
              In (OnCheckout, d) (buttons (detail_view env product (ui pg))) ->
              d = true)
        /\ ~ clickable (detail_view env product (ui pg)) OnCheckout).
Proof.
  split.
  - intros env st Hclick. apply detail_view_buttons_inv in Hclick.
    destruct Hclick as [(i & Hh & _)|[(t & Hh & _)|[_ Hd]]];
      [discriminate|discriminate|].
    symmetry in Hd. apply orb_false_iff in Hd as [Hl Hs].
    apply Z.leb_gt in Hs. auto.
  - intros Hstock pg Hreach env.
    destruct (reachable_idle id product pg Hstock Hreach) as [Hload _].
    assert (Hleb : (Product.stock product <=? 0) = true) by now apply Z.leb_le.
    assert (Hall : forall d,
              In (OnCheckout, d) (buttons (detail_view env product (ui pg))) ->
              d = true).
    { intros d Hin. apply detail_view_buttons_inv in Hin.
      destruct Hin as [(i & Hh & _)|[(t & Hh & _)|[_ Hd]]];
        [discriminate|discriminate|].
      rewrite Hd, Hleb. apply orb_true_r. }
    split; [|split; [exact Hall|]].
    + unfold checkout_button. rewrite Hload, Hleb. eexists. reflexivity.
    + intros Hclick. specialize (Hall _ Hclick). discriminate.
Qed.

Lemma checkout_control_guarded_witness :
  let signed_in := Samples.world (Some "alice")
                     (Samples.respond true 200 Samples.session_cs_123)
                     (Ok (Some (Samples.client Samples.redirected))) in
  let pg := mkPage Samples.ready [] in
  Product.stock Samples.p1 <= 0
  /\ reachable "p1" Samples.p1 pg
  /\ ~ clickable (detail_view signed_in Samples.p1 (ui pg)) OnCheckout.
Proof.
  intros signed_in pg.
  assert (Hstock : Product.stock Samples.p1 <= 0) by (cbn; lia).
  assert (Hreach : reachable "p1" Samples.p1 pg).
  { apply rtc_once. exact (step_effect "p1" Samples.p1 signed_in mounted). }
  split; [exact Hstock|]. split; [exact Hreach|].
  exact (proj2 (proj2 (proj2 (checkout_control_guarded "p1" Samples.p1)
                         Hstock pg Hreach signed_in))).
Defined.

(** * Further properties of the page *)

(** ** The mount effect *)

(** X1.  The mount effect never throws; it leaves [stripeAvailable] true
    exactly when the configuration probe returned true, false when the probe
    returned false or threw; it writes no other cell and sends nothing. *)
Theorem mount_effect_records_probe env st :
  let run := checkStripe env in
  let st' := apply_events (trace run) st in
  outcome run = Ok tt
  /\ stripeAvailable st'
     = match checkStripeConfig env with
       | Ok b => b
       | Throw _ => false
       end
  /\ activeImageIndex st' = activeImageIndex st
  /\ purchaseType st' = purchaseType st
  /\ isLoading st' = isLoading st
  /\ error st' = error st
  /\ count is_fetch (trace run) = 0%nat
  /\ count is_navigation (trace run) = 0%nat.
Proof.
  unfold checkStripe, try_catch, bind, emit, await, trace, outcome.
  destruct (checkStripeConfig env) as [[]|e]; cbn; repeat split.
Qed.

(** ** The request *)

Lemma prefix_cons (a b : ascii) (s1 s2 : string) :
  String.prefix (String a s1) (String b s2)
  = if ascii_dec a b then String.prefix s1 s2 else false.
Proof. reflexivity. Qed.

Lemma prefix_empty (s : string) : String.prefix "" s = true.
Proof. destruct s; reflexivity. Qed.

Lemma startsWith_slash_append (base img : string) :
  base <> "" -> Js.startsWith base "/" = false ->
  Js.startsWith (base +:+ img) "/" = false.
Proof.
  unfold Js.startsWith. destruct base as [|c rest]; [contradiction|].
  intros _. change (String c rest +:+ img) with (String c (rest +:+ img)).
  rewrite !prefix_cons, !prefix_empty. auto.
Qed.

Lemma item_images_of_request env product st item img :
  In item (items (body (checkout_init env product st))) ->
  In img (item_images item) ->
  In img (productImages env product).
Proof.
  unfold checkout_init. cbn [items body]. intros [<-|[]]. cbn [item_images].
  destruct (0 <? length (productImages env product))%nat; [auto|intros []].
Qed.

(** X2.  When the resolved origin is non-empty and does not itself begin
    with a slash, no image address in the request begins with a slash: every
    site-relative path has been made absolute. *)
Theorem request_images_are_absolute env product st :
  baseUrl env <> "" ->
  Js.startsWith (baseUrl env) "/" = false ->
  forall item img,
    In item (items (body (checkout_init env product st))) ->
    In img (item_images item) ->
    Js.startsWith img "/" = false.
Proof.
  intros Hne Hbase item img Hitem Himg.
  pose proof (item_images_of_request env product st item img Hitem Himg) as Hin.
  unfold productImages in Hin. apply in_map_iff in Hin as (src & <- & _).
  destruct (Js.startsWith src "/") eqn:Hsrc; [|exact Hsrc].
  apply startsWith_slash_append; assumption.
Qed.

Lemma request_images_are_absolute_witness :
  let env := Samples.world (Some "alice") (Throw (Error "offline")) (Ok None) in
  baseUrl env <> ""
  /\ Js.startsWith (baseUrl env) "/" = false
  /\ Js.startsWith "https://shop.example/images/a.png" "/" = false.
Proof.
  intros env.
  assert (Hne : baseUrl env <> "") by discriminate.
  split; [exact Hne|]. split; [reflexivity|].
  refine (request_images_are_absolute env Samples.p_sub Samples.ready Hne eq_refl
            _ "https://shop.example/images/a.png" (or_introl eq_refl) _).
  cbn. auto.
Defined.


(** X3.  When no site URL is configured (unset or empty) and there is no
    [window], the origin is empty and the image list goes out exactly as the
    catalog has it, relative paths included. *)
Theorem request_images_unchanged_without_origin env product st :
  NEXT_PUBLIC_SITE_URL env = None \/ NEXT_PUBLIC_SITE_URL env = Some "" ->
  window_origin env = None ->
  baseUrl env = ""
  /\ productImages env product = Product.images product
  /\ exists item,
       items (body (checkout_init env product st)) = [item]
       /\ item_images item = Product.images product.
Proof.
  intros Hsite Hwin.
  assert (Hbase : baseUrl env = "").
  { unfold baseUrl. rewrite Hwin. destruct Hsite as [-> | ->]; reflexivity. }
  assert (Himgs : productImages env product = Product.images product).
  { unfold productImages. rewrite Hbase.
    induction (Product.images product) as [|img l IH]; [reflexivity|].
    cbn [map]. rewrite IH. destruct (Js.startsWith img "/"); reflexivity. }
  split; [exact Hbase|]. split; [exact Himgs|].
  eexists. split; [reflexivity|]. cbn. rewrite Himgs.
  destruct (Product.images product); reflexivity.
Qed.

Lemma request_images_unchanged_without_origin_witness :
  (NEXT_PUBLIC_SITE_URL MoreSamples.headless = None
   \/ NEXT_PUBLIC_SITE_URL MoreSamples.headless = Some "")
  /\ window_origin MoreSamples.headless = None
  /\ productImages MoreSamples.headless Samples.p_sub
     = ["/images/a.png"; "https://cdn.example/b.png"].
Proof.
  split; [right; reflexivity|]. split; [reflexivity|].
  exact (proj1 (proj2 (request_images_unchanged_without_origin
                         MoreSamples.headless Samples.p_sub Samples.ready
                         (or_intror eq_refl) eq_refl))).
Defined.

(** X4.  The request is a POST whose body carries the current purchase mode
    and exactly one line item of quantity 1, with one image address per
    catalog image.  Its price is the subscription price only in subscription
    mode and only when that price is present and non-zero; otherwise, and
    always in one-time mode, it is the list price.  So a non-zero list price
    is never replaced by 0. *)
Theorem request_has_one_priced_item env product st :
  let init := checkout_init env product st in
  method init = "POST"
  /\ body_purchaseType (body init) = purchaseType st
  /\ exists item,
       items (body init) = [item]
       /\ item_quantity item = 1
       /\ item_name item = Product.name product
       /\ length (item_images item) = length (Product.images product)
       /\ (item_price item = Product.price product
           \/ (purchaseType st = Subscription
               /\ Product.subscriptionPrice product = Some (item_price item)
               /\ item_price item <> 0))
       /\ (purchaseType st = OneTime -> item_price item = Product.price product)
       /\ (forall sp, purchaseType st = Subscription ->
             Product.subscriptionPrice product = Some sp -> sp <> 0 ->
             item_price item = sp)
       /\ (Product.price product <> 0 -> item_price item <> 0).
Proof.
  cbn zeta. split; [reflexivity|]. split; [reflexivity|].
  eexists. split; [reflexivity|]. cbn [item_quantity item_name item_images item_price].
  split; [reflexivity|]. split; [reflexivity|]. split.
  { unfold productImages.
    destruct (0 <? length _)%nat eqn:Hlen; [apply length_map|].
    apply Nat.ltb_ge in Hlen. rewrite length_map in Hlen. cbn. lia. }
  unfold resolved_price.
  destruct (purchaseType st), (Product.subscriptionPrice product) as [sp|];
    try destruct (Z.eqb_spec sp 0); repeat split;
    try first [ left; reflexivity | right; auto ];
    intros; simplify_eq; auto; try congruence.
Qed.

Lemma request_has_one_priced_item_witness :
  let env := Samples.world (Some "alice") (Throw (Error "offline")) (Ok None) in
  let st := apply_event Samples.ready (SetPurchaseType Subscription) in
  purchaseType st = Subscription
  /\ Product.subscriptionPrice MoreSamples.p_plan = Some 900
  /\ 900 <> 0
  /\ exists item,
       items (body (checkout_init env MoreSamples.p_plan st)) = [item]
       /\ item_price item = 900.
Proof.
  intros env st.
  assert (Hnz : 900 <> 0) by lia.
  split; [reflexivity|]. split; [reflexivity|]. split; [exact Hnz|].
  destruct (request_has_one_priced_item env MoreSamples.p_plan st)
    as (_ & _ & item & Hitems & _ & _ & _ & _ & _ & Hsub & _).
  exists item. split; [exact Hitems|].
  exact (Hsub 900 eq_refl eq_refl Hnz).
Defined.

(** ** What one run of the handler does and does not do *)

(** X5.  One run of [handleCheckout] sends at most one request: exactly one
    when a user is present and payment is available, none otherwise; and a
    request it sends is the POST to the checkout-session endpoint built from
    the current product and state.  Nothing is retried. *)
Theorem checkout_sends_at_most_one_request env id product st :
  let run := handleCheckout env id product st in
  count is_fetch (trace run)
  = (if bool_decide (is_Some (user env)) && stripeAvailable st then 1 else 0)%nat
  /\ (forall url init,
        In (Fetch url init) (trace run) ->
        url = checkout_url /\ init = checkout_init env product st).
Proof.
  cbn zeta. split.
  - unfold handleCheckout. destruct (user env) as [u|]; [|reflexivity].
    destruct (stripeAvailable st); [|reflexivity].
    checkout_cases; reflexivity.
  - intros url init. checkout_cases; cbn; intuition congruence.
Qed.

Lemma checkout_sends_at_most_one_request_witness :
  let env := MoreSamples.signed_in
               (Samples.respond true 200 Samples.session_cs_123) (Ok None) in
  let init := checkout_init env Samples.p_sub Samples.ready in
  In (Fetch "/api/create-checkout-session" init)
     (trace (handleCheckout env "p2" Samples.p_sub Samples.ready))
  /\ "/api/create-checkout-session" = checkout_url.
Proof.
  intros env init.
  assert (Hin : In (Fetch "/api/create-checkout-session" init)
                   (trace (handleCheckout env "p2" Samples.p_sub Samples.ready))).
  { cbn. auto 10. }
  split; [exact Hin|].
  exact (proj1 (proj2 (checkout_sends_at_most_one_request env "p2" Samples.p_sub
                         Samples.ready) _ _ Hin)).
Defined.

Lemma handleCheckout_navigation_count env id product st :
  count is_navigation (trace (handleCheckout env id product st))
  = match user env with
    | Some _ => 0%nat
    | None => 1%nat
    end.
Proof.
  unfold handleCheckout. destruct (user env) as [u|]; [|reflexivity].
  checkout_cases; reflexivity.
Qed.

Lemma checkout_chain_writes_no_cell env product st :
  Forall writes_no_cell (trace (checkout_chain env product st)).
Proof.
  unfold checkout_chain, reject_response, try_catch, bind, emit, await, throw,
    ret, trace.
  repeat (cbn [fst snd app negb]; case_match; simplify_eq);
    cbn; repeat constructor.
Qed.

Lemma apply_events_writes_no_cell (t : list event) (st : State) :
  Forall writes_no_cell t -> apply_events t st = st.
Proof.
  unfold apply_events. induction 1 as [|ev t Hev Hall IH]; [reflexivity|].
  cbn [fold_left]. destruct ev; cbn in Hev |- *; try contradiction; exact IH.
Qed.

Lemma count_reset_writes_no_cell (t : list event) :
  Forall writes_no_cell t -> count is_loading_reset t = 0%nat.
Proof.
  unfold count. induction 1 as [|ev t Hev Hall IH]; [reflexivity|].
  destruct ev; cbn in Hev |- *; try contradiction; exact IH.
Qed.

(** What is left when the chain rejects with a value whose message cannot
    be read: the catch clause throws before either setter runs. *)
Lemma handleCheckout_unreadable env id product st u complaint :
  user env = Some u ->
  stripeAvailable st = true ->
  outcome (checkout_chain env product st) = Throw (Unreadable complaint) ->
  let run := handleCheckout env id product st in
  let st' := apply_events (trace run) st in
  outcome run = Throw (Error complaint)
  /\ isLoading st' = true
  /\ error st' = ""
  /\ count is_loading_reset (trace run) = 0%nat.
Proof.
  intros Hu Hs Hthrow. cbn zeta.
  split; [rewrite handleCheckout_outcome, Hu, Hs, Hthrow; reflexivity|].
  pose proof (checkout_chain_writes_no_cell env product st) as Hquiet.
  revert Hthrow Hquiet. unfold handleCheckout. rewrite Hu, Hs. cbn [negb].
  destruct (checkout_chain env product st) as [t r]. unfold outcome, trace.
  cbn [fst snd]. intros -> Hquiet.
  unfold try_catch, checkout_catch, read_message, bind, emit, throw.
  cbn [fst snd app].
  unfold apply_events. cbn [fold_left]. rewrite fold_left_app.
  fold (apply_events t (apply_event (apply_event st (SetIsLoading true))
                          (SetError ""))).
  rewrite (apply_events_writes_no_cell t _ Hquiet).
  split; [reflexivity|]. split; [reflexivity|].
  change (count is_loading_reset (t ++ [Console ErrorLevel "決済エラー:"])%list
          = 0%nat).
  unfold count. rewrite List.filter_app, length_app.
  fold (count is_loading_reset t).
  rewrite (count_reset_writes_no_cell t Hquiet). reflexivity.
Qed.

(** X6.  [handleCheckout] catches every rejection whose message can be read
    and then returns normally.  It throws in one case only: when the chain
    rejects with [null] or [undefined], reading [error.message] in the catch
    clause throws; the handler then ends with that TypeError, no error is
    shown, and [isLoading] stays true, never reset.  It navigates exactly when
    there is no user, and then writes no state cell and returns normally. *)
Theorem checkout_throws_only_on_unreadable env id product st :
  let run := handleCheckout env id product st in
  let st' := apply_events (trace run) st in
  ((forall complaint,
      outcome (checkout_chain env product st) <> Throw (Unreadable complaint)) ->
   outcome run = Ok tt)
  /\ (forall u complaint,
        user env = Some u ->
        stripeAvailable st = true ->
        outcome (checkout_chain env product st) = Throw (Unreadable complaint) ->
        outcome run = Throw (Error complaint)
        /\ isLoading st' = true
        /\ error st' = ""
        /\ count is_loading_reset (trace run) = 0%nat)
  /\ count is_navigation (trace run)
     = (if bool_decide (is_Some (user env)) then 0 else 1)%nat
  /\ (user env = None ->
      Forall writes_no_cell (trace run) /\ outcome run = Ok tt).
Proof.
  cbn zeta. split; [|split; [|split]].
  - intros Hread. rewrite handleCheckout_outcome.
    destruct (user env); [|reflexivity].
    destruct (negb (stripeAvailable st)); [reflexivity|].
    destruct (outcome (checkout_chain env product st)) as [[]|[m|complaint]];
      [reflexivity|reflexivity|]. destruct (Hread complaint eq_refl).
  - intros u complaint Hu Hs Hthrow.
    exact (handleCheckout_unreadable env id product st u complaint Hu Hs Hthrow).
  - rewrite handleCheckout_navigation_count.
    destruct (user env); reflexivity.
  - intros Hu. unfold handleCheckout. rewrite Hu. split; [|reflexivity].
    repeat constructor.
Qed.

Lemma checkout_throws_only_on_unreadable_witness :
  let env := MoreSamples.signed_in
               (Samples.respond true 200 Samples.session_cs_123)
               (Throw (Unreadable
                         "Cannot read properties of null (reading 'message')")) in
  let run := handleCheckout env "p2" Samples.p_sub Samples.ready in
  user env = Some "alice"
  /\ stripeAvailable Samples.ready = true
  /\ outcome (checkout_chain env Samples.p_sub Samples.ready)
     = Throw (Unreadable "Cannot read properties of null (reading 'message')")
  /\ outcome run
     = Throw (Error "Cannot read properties of null (reading 'message')")
  /\ isLoading (apply_events (trace run) Samples.ready) = true.
Proof.
  intros env run.
  split; [reflexivity|]. split; [reflexivity|]. split; [reflexivity|].
  pose proof (proj1 (proj2 (checkout_throws_only_on_unreadable env "p2"
                              Samples.p_sub Samples.ready))
                "alice" _ eq_refl eq_refl eq_refl) as H.
  exact (conj (proj1 H) (proj1 (proj2 H))).
Defined.

Lemma apply_events_keeps_stripe (t : list event) (st : State) :
  Forall keeps_selection t ->
  stripeAvailable (apply_events t st) = stripeAvailable st.
Proof.
  unfold apply_events. revert st.
  induction t as [|ev t IH]; intros st Hall; [reflexivity|].
  apply Forall_cons in Hall as [Hev Hall]. cbn [fold_left].
  rewrite (IH _ Hall). destruct ev; cbn in Hev |- *; auto; contradiction.
Qed.

(** X7.  Whatever happens during a checkout, the selected image, the
    purchase mode and the payment-availability cell are as before: the handler
    writes only the loading flag and the error message. *)
Theorem checkout_writes_only_loading_and_error env id product st :
  let st' := apply_events (trace (handleCheckout env id product st)) st in
  activeImageIndex st' = activeImageIndex st
  /\ purchaseType st' = purchaseType st
  /\ stripeAvailable st' = stripeAvailable st.
Proof.
  cbn zeta.
  pose proof (handleCheckout_keeps_selection env id product st) as Hk.
  destruct (apply_events_keeps_selection _ st Hk) as [Hi Hp].
  split; [exact Hi|]. split; [exact Hp|].
  apply apply_events_keeps_stripe. exact Hk.
Qed.

(** ** Messages of the failure paths *)

(** The final state when the chain fails with a given message. *)
Lemma failure_state env id product st u msg :
  user env = Some u ->
  stripeAvailable st = true ->
  outcome (checkout_chain env product st) = Throw (Error msg) ->
  let st' := apply_events (trace (handleCheckout env id product st)) st in
  error st' = msg_prefix +:+ msg /\ isLoading st' = false.
Proof.
  intros Hu Hs Hthrow.
  destruct (handleCheckout_caught env id product st u _ Hu Hs Hthrow) as [He Hl].
  rewrite or_str_empty_default in He. auto.
Qed.

(** X8.  A non-OK response whose body cannot be parsed, or parses to a value
    without a truthy [error] member, is reported with the stock
    session-creation message behind the prefix; the parse failure itself is
    swallowed. *)
Theorem checkout_non_ok_falls_back_to_stock_message
    env id product st u response :
  user env = Some u ->
  stripeAvailable st = true ->
  fetch env checkout_url (checkout_init env product st) = Ok response ->
  ok response = false ->
  (exists e, json response = Throw e)
  \/ (exists data, json response = Ok data /\ Js.and_get data "error" = None) ->
  let st' := apply_events (trace (handleCheckout env id product st)) st in
  error st' = msg_prefix +:+ msg_session_failed /\ isLoading st' = false.
Proof.
  intros Hu Hs Hf Hok Hbody.
  apply (failure_state env id product st u _ Hu Hs).
  assert (Hmsg : non_ok_message env response = msg_session_failed).
  { unfold non_ok_message.
    destruct Hbody as [[e ->]|(data & -> & ->)]; reflexivity. }
  rewrite <- Hmsg. apply checkout_failure_throws.
  apply (NonOkResponse env _ response Hf Hok).
Qed.

Lemma checkout_non_ok_falls_back_to_stock_message_witness :
  let response := {| ok := false; status := 502;
                     json := Throw (Error "Unexpected token <") |} in
  let env := MoreSamples.signed_in (Ok response) (Ok None) in
  let st' := apply_events
               (trace (handleCheckout env "p2" Samples.p_sub Samples.ready))
               Samples.ready in
  ok response = false
  /\ error st' = msg_prefix +:+ msg_session_failed
  /\ isLoading st' = false.
Proof.
  intros response env. split; [reflexivity|].
  exact (checkout_non_ok_falls_back_to_stock_message env "p2" Samples.p_sub
           Samples.ready "alice" response eq_refl eq_refl eq_refl eq_refl
           (or_introl (ex_intro _ (Error "Unexpected token <") eq_refl))).
Defined.

(** X9.  A non-OK response whose [error] member is an object, not a string,
    is reported as the text [[object Object]] behind the prefix, the member
    being passed to [new Error] as it is; unless the object has a member of
    its own named [toString], in which case the conversion throws and the
    engine's TypeError message is what is shown.  The loading flag is reset
    either way. *)
Theorem checkout_non_ok_object_error env id product st u response data members :
  user env = Some u ->
  stripeAvailable st = true ->
  fetch env checkout_url (checkout_init env product st) = Ok response ->
  ok response = false ->
  json response = Ok data ->
  Js.get data "error" = Some (Js.JObj members) ->
  let st' := apply_events (trace (handleCheckout env id product st)) st in
  isLoading st' = false
  /\ (Js.assoc "toString" members = None ->
      error st' = msg_prefix +:+ "[object Object]")
  /\ (forall v, Js.assoc "toString" members = Some v ->
      error st' = msg_prefix +:+ Js.not_primitive (engine env)).
Proof.
  intros Hu Hs Hf Hok Hj Hget.
  assert (Hmsg : non_ok_message env response
                 = Js.error_text (engine env) (Js.JObj members)).
  { unfold non_ok_message, Js.and_get.
    rewrite Hj, (get_some_truthy _ _ _ Hget), Hget. reflexivity. }
  pose proof (checkout_failure_throws env product st _
                (NonOkResponse env _ response Hf Hok)) as Hthrow.
  rewrite Hmsg in Hthrow.
  destruct (failure_state env id product st u _ Hu Hs Hthrow) as [He Hl].
  split; [exact Hl|]. rewrite He. unfold Js.error_text. cbn [Js.to_string].
  split.
  - intros ->. reflexivity.
  - intros v ->. reflexivity.
Qed.

Lemma checkout_non_ok_object_error_witness :
  let plain := Js.JObj [("error", Js.JObj [("code", Js.JStr "sold_out")])] in
  let odd := Js.JObj [("error", Js.JObj [("toString", Js.JNum 1)])] in
  let run j := handleCheckout
                 (MoreSamples.signed_in (Samples.respond false 409 j) (Ok None))
                 "p2" Samples.p_sub Samples.ready in
  Js.assoc "toString" [("code", Js.JStr "sold_out")] = None
  /\ error (apply_events (trace (run plain)) Samples.ready)
     = msg_prefix +:+ "[object Object]"
  /\ Js.assoc "toString" [("toString", Js.JNum 1)] = Some (Js.JNum 1)
  /\ error (apply_events (trace (run odd)) Samples.ready)
     = msg_prefix +:+ "Cannot convert object to primitive value".
Proof.
  intros plain odd run.
  split; [reflexivity|]. split.
  - exact (proj1 (proj2
      (checkout_non_ok_object_error
         (MoreSamples.signed_in (Samples.respond false 409 plain) (Ok None))
         "p2" Samples.p_sub Samples.ready "alice" _ plain _
         eq_refl eq_refl eq_refl eq_refl eq_refl eq_refl)) eq_refl).
  - split; [reflexivity|].
    exact (proj2 (proj2
      (checkout_non_ok_object_error
         (MoreSamples.signed_in (Samples.respond false 409 odd) (Ok None))
         "p2" Samples.p_sub Samples.ready "alice" _ odd _
         eq_refl eq_refl eq_refl eq_refl eq_refl eq_refl)) _ eq_refl).
Defined.

(** X10.  When the request itself is rejected (a network failure), the
    rejection's message is shown behind the prefix, the loading flag is
    reset, and neither the payment client factory nor the redirect is
    invoked. *)
Theorem checkout_network_failure_is_reported env id product st u m :
  user env = Some u ->
  stripeAvailable st = true ->
  fetch env checkout_url (checkout_init env product st) = Throw (Error m) ->
  let run := handleCheckout env id product st in
  let st' := apply_events (trace run) st in
  error st' = msg_prefix +:+ m
  /\ isLoading st' = false
  /\ count is_getStripe (trace run) = 0%nat
  /\ count is_redirect (trace run) = 0%nat.
Proof.
  intros Hu Hs Hf. cbn zeta.
  assert (Hthrow : outcome (checkout_chain env product st) = Throw (Error m)).
  { unfold checkout_chain, bind, emit, await, outcome. cbn zeta.
    rewrite Hf. reflexivity. }
  destruct (handleCheckout_caught env id product st u m Hu Hs Hthrow) as [He Hl].
  rewrite or_str_empty_default in He.
  split; [exact He|]. split; [exact Hl|].
  unfold_checkout. cbn zeta. rewrite Hu, Hs. cbn [fst snd app negb].
  rewrite Hf. split; reflexivity.
Qed.

Lemma checkout_network_failure_is_reported_witness :
  let run := handleCheckout MoreSamples.headless "p2" Samples.p_sub Samples.ready in
  let st' := apply_events (trace run) Samples.ready in
  user MoreSamples.headless = Some "alice"
  /\ stripeAvailable Samples.ready = true
  /\ error st' = msg_prefix +:+ "Failed to fetch"
  /\ isLoading st' = false.
Proof.
  intros run st'. split; [reflexivity|]. split; [reflexivity|].
  pose proof (checkout_network_failure_is_reported MoreSamples.headless "p2"
                Samples.p_sub Samples.ready "alice" "Failed to fetch"
                eq_refl eq_refl eq_refl) as H.
  exact (conj (proj1 H) (proj1 (proj2 H))).
Defined.

(** X11.  When the provider's redirect reports an error, its message is
    shown behind the prefix if it is a non-empty string; if the message is
    missing or empty, the page's own redirect-failure message is shown
    instead.  The loading flag is reset either way. *)
Theorem checkout_redirect_error_message
    env id product st u sessionId stripe res err :
  user env = Some u ->
  stripeAvailable st = true ->
  session_issued env (checkout_init env product st) sessionId ->
  getStripe env = Ok (Some stripe) ->
  Stripe.redirectToCheckout stripe sessionId = Ok res ->
  Stripe.error res = Some err ->
  let st' := apply_events (trace (handleCheckout env id product st)) st in
  isLoading st' = false
  /\ (forall m, Stripe.message err = Some m -> m <> "" ->
        error st' = msg_prefix +:+ m)
  /\ (Stripe.message err = None \/ Stripe.message err = Some "" ->
        error st' = msg_prefix +:+ msg_redirect_failed).
Proof.
  intros Hu Hs Hsession Hg Hr He. cbn zeta.
  pose proof (checkout_failure_throws env product st _
                (RedirectRefused env _ sessionId stripe res err Hsession Hg Hr He))
    as Hthrow.
  destruct (failure_state env id product st u _ Hu Hs Hthrow) as [Herr Hl].
  split; [exact Hl|]. rewrite Herr. unfold redirect_message. split.
  - intros m -> Hm. unfold Js.or_str.
    destruct (String.eqb_spec m ""); [contradiction|reflexivity].
  - intros [-> | ->]; reflexivity.
Qed.

Lemma checkout_redirect_error_message_witness :
  let env := MoreSamples.signed_in
               (Samples.respond true 200 Samples.session_cs_123)
               (Ok (Some (Samples.client (MoreSamples.refused None)))) in
  let st' := apply_events
               (trace (handleCheckout env "p2" Samples.p_sub Samples.ready))
               Samples.ready in
  user env = Some "alice"
  /\ stripeAvailable Samples.ready = true
  /\ error st' = msg_prefix +:+ msg_redirect_failed
  /\ isLoading st' = false.
Proof.
  intros env. split; [reflexivity|]. split; [reflexivity|].
  assert (Hsession : session_issued env
            (checkout_init env Samples.p_sub Samples.ready) (Js.JStr "cs_123")).
  { eexists _, Samples.session_cs_123. repeat split. }
  pose proof (checkout_redirect_error_message env "p2" Samples.p_sub Samples.ready
                "alice" (Js.JStr "cs_123")
                (Samples.client (MoreSamples.refused None)) _
                {| Stripe.message := None |}
                eq_refl eq_refl Hsession eq_refl eq_refl eq_refl) as H.
  exact (conj (proj2 (proj2 H) (or_introl eq_refl)) (proj1 H)).
Defined.

Lemma and_get_truthy (j : Js.json) (k : string) (v : Js.json) :
  Js.and_get j k = Some v -> Js.truthy v = true.
Proof.
  unfold Js.and_get. destruct (Js.truthy j); [|discriminate].
  destruct (Js.get j k) as [w|]; [|discriminate].
  destruct (Js.truthy w) eqn:Hw; [|discriminate]. congruence.
Qed.

(** Reading the issued session off the outcomes met during a run. *)
Ltac session_from_context :=
  match goal with
  | Hf : fetch _ _ _ = Ok ?r, Hj : json ?r = Ok ?d,
    Hok : negb (ok ?r) = false,
    Hsid : Js.and_get ?d "sessionId" = Some ?sid |- _ =>
      exists r, d; repeat split;
      [exact Hf | apply negb_false_iff; exact Hok | exact Hj | exact Hsid]
  end.

(** X12.  The payment client factory and the redirect are reached only
    through an issued session: if [getStripe] was called, the endpoint had
    answered OK with a session identifier; and any identifier handed to
    [redirectToCheckout] is that truthy identifier (never empty, null or 0),
    for a signed-in user with payment available. *)
Theorem payment_client_needs_issued_session env id product st :
  let run := handleCheckout env id product st in
  let init := checkout_init env product st in
  (In GetStripe (trace run) -> exists sessionId, session_issued env init sessionId)
  /\ (forall sessionId,
        In (RedirectToCheckout sessionId) (trace run) ->
        session_issued env init sessionId
        /\ Js.truthy sessionId = true
        /\ is_Some (user env)
        /\ stripeAvailable st = true).
Proof.
  cbn zeta. split.
  - checkout_cases; cbn [In]; intros Hin;
      repeat (destruct Hin as [Hin|Hin]; try discriminate Hin);
      try contradiction;
      match goal with
      | Hsid : Js.and_get _ "sessionId" = Some ?sid |- _ => exists sid
      end; session_from_context.
  - intros sessionId. checkout_cases; cbn [In]; intros Hin;
      repeat (destruct Hin as [Hin|Hin]; try discriminate Hin);
      try contradiction; simplify_eq;
      (split; [session_from_context|]);
      (split; [eapply and_get_truthy; eassumption|]);
      (split; [eauto|]);
      match goal with
      | H : negb (stripeAvailable st) = false |- _ =>
          apply negb_false_iff in H; exact H
      end.
Qed.

Lemma payment_client_needs_issued_session_witness :
  let env := MoreSamples.signed_in
               (Samples.respond true 200 Samples.session_cs_123)
               (Ok (Some (Samples.client Samples.redirected))) in
  let run := handleCheckout env "p2" Samples.p_sub Samples.ready in
  In (RedirectToCheckout (Js.JStr "cs_123")) (trace run)
  /\ Js.truthy (Js.JStr "cs_123") = true.
Proof.
  intros env run.
  assert (Hin : In (RedirectToCheckout (Js.JStr "cs_123")) (trace run)).
  { cbn. auto 12. }
  split; [exact Hin|].
  exact (proj1 (proj2 (proj2 (payment_client_needs_issued_session env "p2"
                                Samples.p_sub Samples.ready) _ Hin))).
Defined.

(** ** The login address *)

Lemma encode_byte_chars (c : ascii) :
  forallb is_encoded_char (list_ascii_of_string (Uri.encode_byte c)) = true.
Proof. destruct c as [[] [] [] [] [] [] [] []]; reflexivity. Qed.

Lemma list_ascii_of_string_append (a b : string) :
  list_ascii_of_string (a +:+ b)
  = (list_ascii_of_string a ++ list_ascii_of_string b)%list.
Proof.
  induction a as [|c a IH]; [reflexivity|].
  change (String c a +:+ b) with (String c (a +:+ b)).
  cbn [list_ascii_of_string app]. f_equal. exact IH.
Qed.

Lemma encodeURIComponent_chars (s : string) :
  forallb is_encoded_char (list_ascii_of_string (Uri.encodeURIComponent s)) = true.
Proof.
  induction s as [|c s IH]; [reflexivity|].
  cbn [Uri.encodeURIComponent].
  rewrite list_ascii_of_string_append, forallb_app, encode_byte_chars, IH.
  reflexivity.
Qed.

Lemma encoded_char_not_delimiter (c : ascii) :
  is_encoded_char c = true -> ~ In c query_delimiters.
Proof.
  intros Hc Hin. unfold query_delimiters in Hin. cbn [In] in Hin.
  repeat (destruct Hin as [<-|Hin]; [discriminate Hc|]). exact Hin.
Qed.

Lemma encodeURIComponent_injective (s1 s2 : string) :
  Uri.encodeURIComponent s1 = Uri.encodeURIComponent s2 -> s1 = s2.
Proof.
  intros Heq.
  pose proof (UriFacts.decode_encode s1) as H1. rewrite Heq in H1.
  rewrite UriFacts.decode_encode in H1. congruence.
Qed.

(** X13.  The address pushed for a signed-out user is [/login?redirect=]
    followed by a value made only of unreserved characters and percent
    escapes: it contains no [&], [#], [?], [=], [/], [+] or space, so the
    product identifier cannot cut or extend the query.  Distinct identifiers
    give distinct addresses. *)
Theorem login_address_is_well_formed env id product st :
  user env = None ->
  exists target,
    trace (handleCheckout env id product st)
    = [RouterPush ("/login?redirect=" +:+ target)]
    /\ Forall (fun c => is_encoded_char c = true /\ ~ In c query_delimiters)
         (list_ascii_of_string target)
    /\ (forall id' product' st',
          trace (handleCheckout env id' product' st')
          = trace (handleCheckout env id product st) ->
          id' = id).
Proof.
  intros Hu. exists (Uri.encodeURIComponent ("/products/" +:+ id)).
  unfold handleCheckout. rewrite Hu. split; [reflexivity|]. split.
  - apply Forall_forall. intros c Hc.
    pose proof (encodeURIComponent_chars ("/products/" +:+ id)) as Hall.
    rewrite forallb_forall in Hall. apply list_elem_of_In in Hc.
    specialize (Hall c Hc). split; [exact Hall|].
    apply encoded_char_not_delimiter. exact Hall.
  - intros id' _ _. unfold emit, trace. cbn [fst]. intros [= Heq].
    apply (encodeURIComponent_injective id' id). exact Heq.
Qed.

Lemma login_address_is_well_formed_witness :
  let env := Samples.world None (Throw (Error "offline")) (Ok None) in
  user env = None
  /\ exists target,
       trace (handleCheckout env "a&b=c" Samples.p1 Samples.ready)
       = [RouterPush ("/login?redirect=" +:+ target)]
       /\ Forall (fun c => is_encoded_char c = true /\ ~ In c query_delimiters)
            (list_ascii_of_string target).
Proof.
  intros env. split; [reflexivity|].
  destruct (login_address_is_well_formed env "a&b=c" Samples.p1 Samples.ready
              eq_refl) as (target & Htrace & Hsafe & _).
  exists target. split; [exact Htrace|exact Hsafe].
Defined.

(** ** The buttons of the view *)

Lemma imap_index_only {A B} (g : nat -> B) (l : list A) :
  imap (fun i _ => g i) l = map g (seq 0 (length l)).
Proof.
  revert g. induction l as [|x l IH]; intros g; [reflexivity|].
  cbn [imap length seq map]. f_equal.
  rewrite <- seq_shift, map_map. apply (IH (g ∘ S)).
Qed.

(** X14.  The buttons of the view of a resolved product are, in document
    order: when there are at least two images, one enabled thumbnail button
    per image, selecting the indices 0, 1, ... in turn (none otherwise); when
    the product is subscription-eligible, the enabled one-time and
    subscription buttons; and last the checkout button, disabled exactly when
    [isLoading || stock <= 0].  So there is exactly one checkout button and no
    go-back button. *)
Theorem detail_view_button_census env product st :
  let bs := buttons (detail_view env product st) in
  let n := length (Product.images product) in
  bs = ((if (1 <? n)%nat
         then map (fun i => (OnSelectImage i, false)) (seq 0 n)
         else [])
        ++ (if Product.isSubscription product
            then [ (OnSelectPurchase OneTime, false);
                   (OnSelectPurchase Subscription, false) ]
            else [])
        ++ [ (OnCheckout, isLoading st || (Product.stock product <=? 0)) ])%list
  /\ length bs
     = ((if (1 <? n)%nat then n else 0)
        + (if Product.isSubscription product then 2 else 0) + 1)%nat
  /\ length (List.filter is_checkout_button bs) = 1%nat
  /\ List.filter is_back_button bs = [].
Proof.
  cbn zeta. rewrite buttons_detail_view.
  unfold thumbnail_buttons, purchase_buttons.
  rewrite (imap_index_only (fun i => (OnSelectImage i, false))
             (Product.images product)).
  split; [reflexivity|].
  rewrite !length_app, !List.filter_app, !length_app.
  assert (Hc : forall m k,
            List.filter is_checkout_button
              (map (fun i => (OnSelectImage i, false)) (seq k m)) = []).
  { induction m as [|m IH]; intros k; [reflexivity|]. cbn. apply IH. }
  assert (Hb : forall m k,
            List.filter is_back_button
              (map (fun i => (OnSelectImage i, false)) (seq k m)) = []).
  { induction m as [|m IH]; intros k; [reflexivity|]. cbn. apply IH. }
  split; [|split].
  - destruct (1 <? length (Product.images product))%nat;
      destruct (Product.isSubscription product); cbn [length];
      rewrite ?length_map, ?length_seq; lia.
  - destruct (1 <? length (Product.images product))%nat;
      destruct (Product.isSubscription product); rewrite ?Hc; reflexivity.
  - destruct (1 <? length (Product.images product))%nat;
      destruct (Product.isSubscription product); rewrite ?Hb; reflexivity.
Qed.

(** ** More invariants of the mounted page *)

Lemma select_image_needs_strip env product st i d :
  In (OnSelectImage i, d) (buttons (detail_view env product st)) ->
  (1 < length (Product.images product))%nat.
Proof.
  rewrite buttons_detail_view, !in_app_iff. intros [Hin|[Hin|[Hin|[]]]].
  - unfold thumbnail_buttons in Hin.
    destruct (1 <? length (Product.images product))%nat eqn:Hlen;
      [|destruct Hin]. apply Nat.ltb_lt. exact Hlen.
  - unfold purchase_buttons in Hin.
    destruct (Product.isSubscription product); [|destruct Hin].
    destruct Hin as [Heq|[Heq|[]]]; discriminate Heq.
  - discriminate Hin.
Qed.

Lemma selection_invariant_step id product pg pg' :
  selection_invariant product pg -> step id product pg pg' ->
  selection_invariant product pg'.
Proof.
  intros (Hidx & Hmode & Hks) Hstep.
  destruct Hstep as [env pg|env pg h Hclick t|pg ks1 ks2 k Hin].
  - destruct (checkStripe_trace env) as (lvl & text & b & ->).
    repeat split; assumption.
  - pose proof Hclick as Hclick'. apply detail_view_buttons_inv in Hclick.
    destruct Hclick as [(i & -> & _ & Hi)|[(m & -> & _ & Hsub)|[-> _]]].
    + apply select_image_needs_strip in Hclick'.
      repeat split; [intros Hle; cbn in *; lia|exact Hmode|exact Hks].
    + repeat split; [exact Hidx| |exact Hks]. intros Hno. congruence.
    + assert (Ht : Forall keeps_selection t)
        by apply handleCheckout_keeps_selection.
      destruct (apply_events_keeps_selection (sync_part t) (ui pg)
                  (sync_part_Forall _ _ Ht)) as [Hi Hp].
      repeat split; cbn [ui inflight].
      * rewrite Hi. exact Hidx.
      * rewrite Hp. exact Hmode.
      * unfold suspend. destruct (continuation t) as [k|] eqn:Hk; [|exact Hks].
        constructor; [|exact Hks]. eapply continuation_Forall; eauto.
  - rewrite Hin in Hks. apply Forall_app in Hks as [Hks1 Hks2].
    apply Forall_cons in Hks2 as [Hk Hks2].
    destruct (apply_events_keeps_selection k (ui pg) Hk) as [Hi Hp].
    repeat split; cbn [ui inflight].
    + rewrite Hi. exact Hidx.
    + rewrite Hp. exact Hmode.
    + apply Forall_app. auto.
Qed.

Lemma reachable_selection_invariant id product pg :
  reachable id product pg -> selection_invariant product pg.
Proof.
  revert pg. apply (rtc_ind_r (selection_invariant product) mounted).
  - repeat split; constructor.
  - intros pg pg' _ Hstep IH. eapply selection_invariant_step; eauto.
Qed.

(** X15.  For a product with at most one image the thumbnail strip is not
    rendered, so no reachable state has an active image index other than 0. *)
Theorem single_image_index_stays_zero id product pg :
  (length (Product.images product) <= 1)%nat ->
  reachable id product pg ->
  activeImageIndex (ui pg) = 0%nat
  /\ forall env i d,
       ~ In (OnSelectImage i, d) (buttons (detail_view env product (ui pg))).
Proof.
  intros Hlen Hreach.
  destruct (reachable_selection_invariant id product pg Hreach) as (Hidx & _ & _).
  split; [exact (Hidx Hlen)|].
  intros env i d Hin. apply select_image_needs_strip in Hin. lia.
Qed.

Lemma single_image_index_stays_zero_witness :
  let env := MoreSamples.signed_in
               (Samples.respond false 400 Samples.out_of_stock_body) (Ok None) in
  let pg := mkPage (apply_event Samples.ready (SetPurchaseType Subscription)) [] in
  (length (Product.images MoreSamples.p_plan) <= 1)%nat
  /\ reachable "p4" MoreSamples.p_plan pg
  /\ activeImageIndex (ui pg) = 0%nat.
Proof.
  intros env pg.
  assert (Hlen : (length (Product.images MoreSamples.p_plan) <= 1)%nat)
    by (cbn; lia).
  assert (Hreach : reachable "p4" MoreSamples.p_plan pg).
  { eapply rtc_l; [exact (step_effect "p4" MoreSamples.p_plan env mounted)|].
    apply rtc_once.
    refine (step_click "p4" MoreSamples.p_plan env _
              (OnSelectPurchase Subscription) _).
    unfold clickable. cbn. auto. }
  split; [exact Hlen|]. split; [exact Hreach|].
  exact (proj1 (single_image_index_stays_zero "p4" MoreSamples.p_plan pg
                  Hlen Hreach)).
Defined.

(** X16.  For a product that is not subscription-eligible the purchase-mode
    buttons are not rendered, so every reachable state is in one-time mode,
    and a checkout started from it asks for the list price with the
    [one-time] tag. *)
Theorem one_time_only_without_subscription id product pg :
  Product.isSubscription product = false ->
  reachable id product pg ->
  purchaseType (ui pg) = OneTime
  /\ forall env,
       body (checkout_init env product (ui pg))
       = {| items :=
              [ {| item_name := Product.name product;
                   item_description := Js.or_str (Product.description product) "";
                   item_images :=
                     if (0 <? length (productImages env product))%nat
                     then productImages env product else [];
                   item_price := Product.price product;
                   item_quantity := 1 |} ];
            body_purchaseType := OneTime |}.
Proof.
  intros Hsub Hreach.
  destruct (reachable_selection_invariant id product pg Hreach) as (_ & Hmode & _).
  specialize (Hmode Hsub). split; [exact Hmode|].
  intros env. unfold checkout_init, resolved_price. cbn [body].
  rewrite Hmode. reflexivity.
Qed.

Lemma one_time_only_without_subscription_witness :
  let env := MoreSamples.signed_in
               (Samples.respond false 400 Samples.out_of_stock_body) (Ok None) in
  let pg := mkPage Samples.ready [] in
  Product.isSubscription Samples.p_bare = false
  /\ reachable "p3" Samples.p_bare pg
  /\ purchaseType (ui pg) = OneTime.
Proof.
  intros env pg.
  assert (Hreach : reachable "p3" Samples.p_bare pg).
  { apply rtc_once. exact (step_effect "p3" Samples.p_bare env mounted). }
  split; [reflexivity|]. split; [exact Hreach|].
  exact (proj1 (one_time_only_without_subscription "p3" Samples.p_bare pg
                  eq_refl Hreach)).
Defined.

Lemma handleCheckout_continuation env id product st k :
  continuation (trace (handleCheckout env id product st)) = Some k ->
  is_Some (user env) /\ stripeAvailable st = true.
Proof.
  unfold handleCheckout. destruct (user env) as [u|]; [|discriminate].
  destruct (stripeAvailable st); [eauto|discriminate].
Qed.

Lemma apply_events_checkout_sync env id product st u :
  user env = Some u ->
  stripeAvailable st = true ->
  apply_events (sync_part (trace (handleCheckout env id product st))) st
  = mkState (activeImageIndex st) (purchaseType st) true "" true.
Proof.
  intros Hu Hs. rewrite (handleCheckout_sync_part env id product st u Hu Hs).
  cbn. rewrite Hs. reflexivity.
Qed.

Lemma single_flight_step id product pg pg' :
  single_flight pg -> step id product pg pg' -> single_flight pg'.
Proof.
  intros Hinv Hstep.
  destruct Hstep as [env pg|env pg h Hclick t|pg ks1 ks2 k Hin].
  - destruct (checkStripe_trace env) as (lvl & text & b & ->). exact Hinv.
  - apply detail_view_buttons_inv in Hclick.
    destruct Hclick as [(i & -> & _ & Hi)|[(m & -> & _ & Hsub)|[-> Hd]]].
    + exact Hinv.
    + exact Hinv.
    + symmetry in Hd. apply orb_false_iff in Hd as [Hload _].
      assert (Hfly : inflight pg = []).
      { destruct Hinv as [Hnil|(k & _ & Hl)]; [exact Hnil|congruence]. }
      unfold single_flight, suspend. cbn [ui inflight]. rewrite Hfly.
      destruct (continuation t) as [k|] eqn:Hk; [|left; reflexivity].
      right. exists k. split; [reflexivity|].
      destruct (handleCheckout_continuation _ _ _ _ _ Hk) as [[u Hu] Hs].
      subst t. cbn [run_handler].
      rewrite (apply_events_checkout_sync env id product (ui pg) u Hu Hs).
      reflexivity.
  - left. cbn [inflight].
    destruct Hinv as [Hnil|(k' & Hone & _)].
    + rewrite Hnil in Hin. destruct ks1; discriminate Hin.
    + rewrite Hone in Hin.
      destruct ks1 as [|a [|b ks1]]; cbn in Hin; simplify_eq; reflexivity.
Qed.

(** X17.  In every reachable state at most one checkout is suspended at an
    [await], and while one is, the loading flag is set, so the trigger cannot
    start a second one. *)
Theorem at_most_one_checkout_in_flight id product pg :
  reachable id product pg ->
  (length (inflight pg) <= 1)%nat
  /\ (inflight pg <> [] ->
      isLoading (ui pg) = true
      /\ forall env, ~ clickable (detail_view env product (ui pg)) OnCheckout).
Proof.
  intros Hreach.
  assert (Hinv : single_flight pg).
  { revert pg Hreach. apply (rtc_ind_r single_flight mounted).
    - left. reflexivity.
    - intros pg pg' _ Hstep IH. eapply single_flight_step; eauto. }
  destruct Hinv as [Hnil|(k & Hone & Hload)].
  - rewrite Hnil. split; [cbn; lia|]. intros Hne. contradiction.
  - rewrite Hone. split; [cbn; lia|]. intros _. split; [exact Hload|].
    intros env Hclick. apply detail_view_buttons_inv in Hclick.
    destruct Hclick as [(i & Hh & _)|[(t & Hh & _)|[_ Hd]]];
      [discriminate|discriminate|].
    rewrite Hload in Hd. discriminate Hd.
Qed.

Lemma at_most_one_checkout_in_flight_witness :
  let env := MoreSamples.signed_in
               (Samples.respond false 400 Samples.out_of_stock_body) (Ok None) in
  let k := [ Console ErrorLevel "決済エラー:";
             SetError (msg_prefix +:+ "out of stock"); SetIsLoading false ] in
  let pg := mkPage (mkState 0 OneTime true "" true) [k] in
  reachable "p2" Samples.p_sub pg
  /\ inflight pg <> []
  /\ isLoading (ui pg) = true.
Proof.
  intros env k pg.
  assert (Hreach : reachable "p2" Samples.p_sub pg).
  { eapply rtc_l; [exact (step_effect "p2" Samples.p_sub env mounted)|].
    apply rtc_once.
    refine (step_click "p2" Samples.p_sub env _ OnCheckout _).
    unfold clickable. cbn. auto 10. }
  assert (Hne : inflight pg <> []) by discriminate.
  split; [exact Hreach|]. split; [exact Hne|].
  exact (proj1 (proj2 (at_most_one_checkout_in_flight "p2" Samples.p_sub pg Hreach)
                  Hne)).
Defined.

(** ** The inline error *)

Lemma handleCheckout_sets_known_errors env id product st :
  Forall sets_known_error (trace (handleCheckout env id product st)).
Proof.
  checkout_cases; cbn;
    repeat (constructor; [cbn; unfold known_error; eauto|]); constructor.
Qed.

Lemma apply_events_known_error (t : list event) (st : State) :
  Forall sets_known_error t ->
  known_error (error st) ->
  known_error (error (apply_events t st)).
Proof.
  unfold apply_events. revert st.
  induction t as [|ev t IH]; intros st Hall Hst; [exact Hst|].
  apply Forall_cons in Hall as [Hev Hall]. cbn [fold_left].
  apply IH; [exact Hall|]. destruct ev; cbn in Hev |- *; assumption.
Qed.

Lemma error_invariant_step id product pg pg' :
  error_invariant pg -> step id product pg pg' -> error_invariant pg'.
Proof.
  intros [Herr Hks] Hstep.
  destruct Hstep as [env pg|env pg h Hclick t|pg ks1 ks2 k Hin].
  - destruct (checkStripe_trace env) as (lvl & text & b & ->).
    split; assumption.
  - assert (Ht : Forall sets_known_error t).
    { subst t. destruct h; cbn; try (repeat constructor).
      apply handleCheckout_sets_known_errors. }
    split; cbn [ui inflight].
    + apply apply_events_known_error; [|exact Herr].
      apply sync_part_Forall. exact Ht.
    + unfold suspend. destruct (continuation t) as [k|] eqn:Hk; [|exact Hks].
      constructor; [|exact Hks]. eapply continuation_Forall; eauto.
  - rewrite Hin in Hks. apply Forall_app in Hks as [Hks1 Hks2].
    apply Forall_cons in Hks2 as [Hk Hks2].
    split; cbn [ui inflight].
    + apply apply_events_known_error; assumption.
    + apply Forall_app. auto.
Qed.

(** X18.  In every reachable state the inline error is empty, or the
    configuration message, or some message behind the fixed prefix; the error
    box is rendered exactly when it is not empty and shows that text. *)
Theorem inline_error_is_contextualized id product pg :
  reachable id product pg ->
  (error (ui pg) = ""
   \/ error (ui pg) = msg_not_configured
   \/ exists m, error (ui pg) = msg_prefix +:+ m)
  /\ (error (ui pg) = "" -> error_block (ui pg) = [])
  /\ (error (ui pg) <> "" ->
      exists cls, error_block (ui pg) = [ Elem "div" cls [ Text (error (ui pg)) ] ]).
Proof.
  intros Hreach.
  assert (Hinv : error_invariant pg).
  { revert pg Hreach. apply (rtc_ind_r error_invariant mounted).
    - split; [left; reflexivity|constructor].
    - intros pg pg' _ Hstep IH. eapply error_invariant_step; eauto. }
  destruct Hinv as [Herr _]. split; [exact Herr|].
  unfold error_block, when. split.
  - intros ->. reflexivity.
  - intros Hne. destruct (String.eqb_spec (error (ui pg)) ""); [contradiction|].
    cbn. eauto.
Qed.

Lemma inline_error_is_contextualized_witness :
  let env := Samples.world (Some "alice") (Throw (Error "offline")) (Ok None) in
  let pg := mkPage (apply_event initial (SetError msg_not_configured)) [] in
  reachable "p2" Samples.p_sub pg
  /\ error (ui pg) <> ""
  /\ exists cls, error_block (ui pg) = [ Elem "div" cls [ Text msg_not_configured ] ].
Proof.
  intros env pg.
  assert (Hreach : reachable "p2" Samples.p_sub pg).
  { apply rtc_once.
    refine (step_click "p2" Samples.p_sub env mounted OnCheckout _).
    unfold clickable. cbn. auto 10. }
  assert (Hne : error (ui pg) <> "") by discriminate.
  split; [exact Hreach|]. split; [exact Hne|].
  exact (proj2 (proj2 (inline_error_is_contextualized "p2" Samples.p_sub pg Hreach))
           Hne).
Defined.

(** ** The trigger control around a checkout *)

(** X19.  As soon as a signed-in user with payment available starts a
    checkout, before the request settles, the previous error is cleared, the
    error box disappears, and the trigger is disabled and reads [処理中...];
    the selection cells are untouched. *)
Theorem checkout_in_progress_disables_trigger env id product st u :
  user env = Some u ->
  stripeAvailable st = true ->
  let st1 := apply_events (sync_part (trace (handleCheckout env id product st))) st in
  isLoading st1 = true
  /\ error st1 = ""
  /\ error_block st1 = []
  /\ activeImageIndex st1 = activeImageIndex st
  /\ purchaseType st1 = purchaseType st
  /\ (exists cls,
        checkout_button product st1 = Button cls OnCheckout true [ Text "処理中..." ])
  /\ (forall env', ~ clickable (detail_view env' product st1) OnCheckout).
Proof.
  intros Hu Hs. cbn zeta.
  rewrite (apply_events_checkout_sync env id product st u Hu Hs).
  repeat split.
  - unfold checkout_button. cbn. eexists. reflexivity.
  - intros env' Hclick. apply detail_view_buttons_inv in Hclick.
    destruct Hclick as [(i & Hh & _)|[(t & Hh & _)|[_ Hd]]]; discriminate.
Qed.

Lemma checkout_in_progress_disables_trigger_witness :
  let env := MoreSamples.signed_in
               (Samples.respond true 200 Samples.session_cs_123) (Ok None) in
  let st := apply_event Samples.ready (SetError msg_not_configured) in
  let st1 := apply_events
               (sync_part (trace (handleCheckout env "p2" Samples.p_sub st))) st in
  user env = Some "alice"
  /\ stripeAvailable st = true
  /\ isLoading st1 = true
  /\ error st1 = "".
Proof.
  intros env st. split; [reflexivity|]. split; [reflexivity|].
  pose proof (checkout_in_progress_disables_trigger env "p2" Samples.p_sub st
                "alice" eq_refl eq_refl) as H.
  exact (conj (proj1 H) (proj1 (proj2 H))).
Defined.

(** X20.  After a failure of the chain that carries a message (each of the
    page's own failures, and any rejection whose message can be read) the page
    is ready for a new attempt: the error box shows the message, and for a
    product in stock the trigger is enabled again and reads [購入する].  After
    a rejection with [null] or [undefined] it is not: the trigger stays
    disabled and reads [処理中...]. *)
Theorem checkout_failure_allows_retry env id product st u :
  user env = Some u ->
  stripeAvailable st = true ->
  0 < Product.stock product ->
  let st' := apply_events (trace (handleCheckout env id product st)) st in
  (forall m,
     outcome (checkout_chain env product st) = Throw (Error m) ->
     (exists cls, error_block st' = [ Elem "div" cls [ Text (error st') ] ])
     /\ (exists cls,
          checkout_button product st'
          = Button cls OnCheckout false [ Text "購入する" ])
     /\ (forall env', clickable (detail_view env' product st') OnCheckout))
  /\ (forall complaint,
        outcome (checkout_chain env product st) = Throw (Unreadable complaint) ->
        error_block st' = []
        /\ (exists cls,
             checkout_button product st'
             = Button cls OnCheckout true [ Text "処理中..." ])
        /\ (forall env', ~ clickable (detail_view env' product st') OnCheckout)).
Proof.
  intros Hu Hs Hstock. cbn zeta.
  assert (Hleb : (Product.stock product <=? 0) = false) by now apply Z.leb_gt.
  split.
  - intros m Hthrow.
    destruct (handleCheckout_caught env id product st u m Hu Hs Hthrow) as [He Hl].
    split; [|split].
    + unfold error_block, when. rewrite He. cbn. eauto.
    + unfold checkout_button. rewrite Hl, Hleb. eexists. reflexivity.
    + intros env'. unfold clickable.
      rewrite buttons_detail_view, Hl, Hleb, !in_app_iff. cbn. auto.
  - intros complaint Hthrow.
    destruct (handleCheckout_unreadable env id product st u complaint Hu Hs Hthrow)
      as (_ & Hl & He & _).
    split; [|split].
    + unfold error_block, when. rewrite He. reflexivity.
    + unfold checkout_button. rewrite Hl. eexists. reflexivity.
    + intros env' Hclick. apply detail_view_buttons_inv in Hclick.
      destruct Hclick as [(i & Hh & _)|[(t & Hh & _)|[_ Hd]]];
        [discriminate|discriminate|].
      rewrite Hl in Hd. discriminate Hd.
Qed.

Lemma checkout_failure_allows_retry_witness :
  let env := MoreSamples.signed_in
               (Samples.respond false 400 Samples.out_of_stock_body) (Ok None) in
  let st' := apply_events
               (trace (handleCheckout env "p2" Samples.p_sub Samples.ready))
               Samples.ready in
  user env = Some "alice"
  /\ 0 < Product.stock Samples.p_sub
  /\ outcome (checkout_chain env Samples.p_sub Samples.ready)
     = Throw (Error "out of stock")
  /\ clickable (detail_view env Samples.p_sub st') OnCheckout.
Proof.
  intros env.
  assert (Hstock : 0 < Product.stock Samples.p_sub) by (cbn; lia).
  split; [reflexivity|]. split; [exact Hstock|]. split; [reflexivity|].
  exact (proj2 (proj2 (proj1 (checkout_failure_allows_retry env "p2" Samples.p_sub
                                Samples.ready "alice" eq_refl eq_refl Hstock)
                         "out of stock" eq_refl)) env).
Defined.

(** X21.  The login hint under the trigger is shown exactly when a click on
    the trigger would navigate to the login page instead of checking out. *)
Theorem login_hint_matches_handler env id product st :
  (login_hint env <> [] <->
   count is_navigation (trace (handleCheckout env id product st)) = 1%nat)
  /\ (login_hint env = [] <->
      count is_navigation (trace (handleCheckout env id product st)) = 0%nat).
Proof.
  rewrite handleCheckout_navigation_count. unfold login_hint, when.
  destruct (user env) as [u|]; cbn;
    split; split; intros H; try reflexivity; try discriminate; contradiction.
Qed.

Lemma login_hint_matches_handler_witness :
  let env := Samples.world None (Throw (Error "offline")) (Ok None) in
  login_hint env <> []
  /\ count is_navigation (trace (handleCheckout env "p1" Samples.p1 Samples.ready))
     = 1%nat.
Proof.
  intros env.
  assert (Hhint : login_hint env <> []) by discriminate.
  split; [exact Hhint|].
  exact (proj1 (proj1 (login_hint_matches_handler env "p1" Samples.p1
                         Samples.ready)) Hhint).
Defined.



(** ** Price shown and price charged *)

(** X22.  In one-time mode only the list price is shown and it is the price
    sent.  In subscription mode, for a subscription-eligible product with a
    non-zero subscription price, the second span shows that price and it is
    the price sent. *)
Theorem price_shown_is_price_sent env product st :
  (purchaseType st = OneTime ->
   price_display env product st
   = Elem "div" "mb-6"
       [ Elem "span" "text-2xl font-bold text-primary"
           [ Text (formatPrice env (Product.price product)) ] ]
   /\ resolved_price product (purchaseType st) = Product.price product)
  /\ (forall sp,
        purchaseType st = Subscription ->
        Product.isSubscription product = true ->
        Product.subscriptionPrice product = Some sp ->
        sp <> 0 ->
        price_display env product st
        = Elem "div" "mb-6"
            [ Elem "span" "text-2xl font-bold text-primary"
                [ Text (formatPrice env (Product.price product)) ];
              Elem "span" "text-lg ml-2 text-gray-600"
                [ Text (formatPrice env sp); Text "/月" ] ]
        /\ resolved_price product (purchaseType st) = sp).
Proof.
  split.
  - intros Hmode. unfold price_display, resolved_price. rewrite Hmode.
    rewrite andb_false_r. split; reflexivity.
  - intros sp Hmode Hsub Hsp Hnz.
    unfold price_display, resolved_price, Js.or_num.
    rewrite Hmode, Hsub, Hsp. apply Z.eqb_neq in Hnz. rewrite Hnz.
    split; reflexivity.
Qed.

Lemma price_shown_is_price_sent_witness :
  let env := Samples.world None (Throw (Error "offline")) (Ok None) in
  let st := apply_event Samples.ready (SetPurchaseType Subscription) in
  purchaseType st = Subscription
  /\ Product.subscriptionPrice MoreSamples.p_plan = Some 900
  /\ text_of (price_display env MoreSamples.p_plan st) = "JPY 1200JPY 900/月"
  /\ resolved_price MoreSamples.p_plan (purchaseType st) = 900.
Proof.
  intros env st. split; [reflexivity|]. split; [reflexivity|].
  destruct (proj2 (price_shown_is_price_sent env MoreSamples.p_plan st) 900
              eq_refl eq_refl eq_refl ltac:(lia)) as [Hview Hprice].
  split; [rewrite Hview; reflexivity|exact Hprice].
Defined.
